(** * HW3: single-button press classifier and LED blink controller

    Shallow embedding of [HWs/HW3/HW3/src/RoniMain.cpp] (the active,
    interrupt-driven solution; the first 86 lines of that file are a
    commented-out polling solution and are not part of the program).

    The target is an ATmega328P (Arduino Uno, 16 MHz): [int] is a 16-bit
    two's complement integer, [unsigned long] is 32 bits, [OCR1A] and
    [TCNT1] are 16-bit registers, the other Timer1 registers are 8 bits.
    Machine integers are [Z] with the wrap-around written out. *)

From Stdlib Require Import ZArith Bool List String Lia.
Import ListNotations.
Local Open Scope Z_scope.

(** ** Machine integers of the target *)

Module Avr.

Definition INT_MIN : Z := -32768.
Definition INT_MAX : Z := 32767.

(** [int]: 16 bits, two's complement.  Overflow of a signed operation is
    modelled as the wrap-around avr-gcc emits. *)
Definition wrap_int (x : Z) : Z := (x + 32768) mod 65536 - 32768.

(** 8-bit and 16-bit I/O registers. *)
Definition wrap_u8 (x : Z) : Z := x mod 256.
Definition wrap_u16 (x : Z) : Z := x mod 65536.

(** [unsigned long]: 32 bits. *)
Definition ULONG_MOD : Z := 4294967296.
Definition wrap_ulong (x : Z) : Z := x mod ULONG_MOD.
Definition sub_ulong (a b : Z) : Z := wrap_ulong (a - b).

Definition is_int (x : Z) : Prop := INT_MIN <= x <= INT_MAX.
Definition is_u8 (x : Z) : Prop := 0 <= x < 256.
Definition is_u16 (x : Z) : Prop := 0 <= x < 65536.
Definition is_ulong (x : Z) : Prop := 0 <= x < ULONG_MOD.

(** Bit positions of the Timer1 registers, from <avr/io.h> for the
    ATmega328P (the source uses them by name). *)
Definition CS10 : Z := 0.
Definition CS12 : Z := 2.
Definition WGM12 : Z := 3.
Definition OCIE1A : Z := 1.

(** System clock and the Timer1 prescaler chosen by CS12|CS10, as in the
    source comment: 16MHz / 1024 = 15625 Hz. *)
Definition F_CPU : Z := 16000000.
Definition PRESCALER : Z := 1024.
Definition TIMER1_HZ : Z := F_CPU / PRESCALER.

End Avr.
Import Avr.

(** ** Constants of the program *)

Definition SHORT_PRESS_TIME : Z := 1500.
Definition LONG_PRESS_TIME : Z := 4000.
Definition DEBOUNCE_TIME : Z := 50.

(** ** Program state *)

(** What was written to the serial channel, oldest first. *)
Inductive SerialOut : Type :=
| SerialPrint (msg : string)
| SerialPrintln (msg : string)
| SerialPrintlnInt (n : Z).

(** The Timer1 register file. *)
Record Timer1 : Type := mkTimer1 {
  TCCR1A : Z;
  TCCR1B : Z;
  TCNT1 : Z;
  OCR1A : Z;
  TIMSK1 : Z
}.

(** The globals of the program, the level of the LED pin and the
    peripherals it drives. *)
Record State : Type := mkState {
  PressCounter : Z;          (* volatile int *)
  pressTime : Z;             (* volatile unsigned long *)
  lastISRTime : Z;           (* volatile unsigned long *)
  actionShort : bool;
  actionStart : bool;
  actionStop : bool;
  Blink : bool;
  lastFlashStart : Z;        (* unsigned long *)
  feedbackLedOn : bool;
  led : bool;                (* level of output pin ledPin: true = HIGH *)
  timer1 : Timer1;
  serial : list SerialOut
}.

Definition set_PressCounter (v : Z) (s : State) : State :=
  mkState v (pressTime s) (lastISRTime s) (actionShort s) (actionStart s)
    (actionStop s) (Blink s) (lastFlashStart s) (feedbackLedOn s) (led s)
    (timer1 s) (serial s).

Definition set_pressTime (v : Z) (s : State) : State :=
  mkState (PressCounter s) v (lastISRTime s) (actionShort s) (actionStart s)
    (actionStop s) (Blink s) (lastFlashStart s) (feedbackLedOn s) (led s)
    (timer1 s) (serial s).

Definition set_lastISRTime (v : Z) (s : State) : State :=
  mkState (PressCounter s) (pressTime s) v (actionShort s) (actionStart s)
    (actionStop s) (Blink s) (lastFlashStart s) (feedbackLedOn s) (led s)
    (timer1 s) (serial s).

Definition set_actionShort (v : bool) (s : State) : State :=
  mkState (PressCounter s) (pressTime s) (lastISRTime s) v (actionStart s)
    (actionStop s) (Blink s) (lastFlashStart s) (feedbackLedOn s) (led s)
    (timer1 s) (serial s).

Definition set_actionStart (v : bool) (s : State) : State :=
  mkState (PressCounter s) (pressTime s) (lastISRTime s) (actionShort s) v
    (actionStop s) (Blink s) (lastFlashStart s) (feedbackLedOn s) (led s)
    (timer1 s) (serial s).

Definition set_actionStop (v : bool) (s : State) : State :=
  mkState (PressCounter s) (pressTime s) (lastISRTime s) (actionShort s)
    (actionStart s) v (Blink s) (lastFlashStart s) (feedbackLedOn s) (led s)
    (timer1 s) (serial s).

Definition set_Blink (v : bool) (s : State) : State :=
  mkState (PressCounter s) (pressTime s) (lastISRTime s) (actionShort s)
    (actionStart s) (actionStop s) v (lastFlashStart s) (feedbackLedOn s)
    (led s) (timer1 s) (serial s).

Definition set_lastFlashStart (v : Z) (s : State) : State :=
  mkState (PressCounter s) (pressTime s) (lastISRTime s) (actionShort s)
    (actionStart s) (actionStop s) (Blink s) v (feedbackLedOn s) (led s)
    (timer1 s) (serial s).

Definition set_feedbackLedOn (v : bool) (s : State) : State :=
  mkState (PressCounter s) (pressTime s) (lastISRTime s) (actionShort s)
    (actionStart s) (actionStop s) (Blink s) (lastFlashStart s) v (led s)
    (timer1 s) (serial s).

(** [digitalWrite(ledPin, v)] *)
Definition digitalWrite_led (v : bool) (s : State) : State :=
  mkState (PressCounter s) (pressTime s) (lastISRTime s) (actionShort s)
    (actionStart s) (actionStop s) (Blink s) (lastFlashStart s)
    (feedbackLedOn s) v (timer1 s) (serial s).

Definition set_timer1 (v : Timer1) (s : State) : State :=
  mkState (PressCounter s) (pressTime s) (lastISRTime s) (actionShort s)
    (actionStart s) (actionStop s) (Blink s) (lastFlashStart s)
    (feedbackLedOn s) (led s) v (serial s).

(** [Serial.print] / [Serial.println]: append to the channel. *)
Definition serial_out (o : list SerialOut) (s : State) : State :=
  mkState (PressCounter s) (pressTime s) (lastISRTime s) (actionShort s)
    (actionStart s) (actionStop s) (Blink s) (lastFlashStart s)
    (feedbackLedOn s) (led s) (timer1 s) (serial s ++ o).

(** The state after the global initialisers and [setup()]: every global
    at its initial value, the Timer1 registers at their reset value, and
    the banner printed. *)
Definition boot : State :=
  mkState 0 0 0 false false false false 0 false false
    (mkTimer1 0 0 0 0 0) [SerialPrintln "System Ready."%string].

(** ** Interrupt handlers *)

(** [buttonISR()].  [now] is the value [millis()] returns, [pin] the level
    [digitalRead(buttonPin)] returns ([true] = HIGH = button down). *)
Definition buttonISR (now : Z) (pin : bool) (s : State) : State :=
  if sub_ulong now (lastISRTime s) <? DEBOUNCE_TIME then s
  else
    let s := set_lastISRTime now s in
    if pin then
      set_pressTime now s
    else
      let duration := sub_ulong now (pressTime s) in
      if duration <? SHORT_PRESS_TIME then
        if negb (Blink s) then
          set_actionShort true
            (set_PressCounter (wrap_int (PressCounter s + 1)) s)
        else s
      else if duration <? LONG_PRESS_TIME then
        set_actionStart true s
      else
        set_actionStop true s.

(** [ISR(TIMER1_COMPA_vect)]: write back the negation of the level read. *)
Definition TIMER1_COMPA_vect (s : State) : State :=
  digitalWrite_led (negb (led s)) s.

(** ** Timer control *)

(** [startTimer(counts)].  The product [7812 * counts] and the subtraction
    are [int] operations; the result is stored in the 16-bit [OCR1A].  The
    [noInterrupts()] / [interrupts()] bracket only makes the register
    writes atomic, which every handler of this model already is. *)
Definition startTimer (counts : Z) (s : State) : State :=
  let counts := if counts =? 0 then 1 else counts in
  let t := timer1 s in
  let t := mkTimer1 0 0 0 (OCR1A t) (TIMSK1 t) in
  let t := mkTimer1 (TCCR1A t) (TCCR1B t) (TCNT1 t)
             (wrap_u16 (wrap_int (wrap_int (7812 * counts) - 1)))
             (TIMSK1 t) in
  let t := mkTimer1 (TCCR1A t)
             (wrap_u8 (Z.lor (TCCR1B t)
                (Z.lor (Z.lor (Z.shiftl 1 WGM12) (Z.shiftl 1 CS12))
                       (Z.shiftl 1 CS10))))
             (TCNT1 t) (OCR1A t) (TIMSK1 t) in
  let t := mkTimer1 (TCCR1A t) (TCCR1B t) (TCNT1 t) (OCR1A t)
             (wrap_u8 (Z.lor (TIMSK1 t) (Z.shiftl 1 OCIE1A))) in
  set_timer1 t s.

(** [stopTimer()] *)
Definition stopTimer (s : State) : State :=
  let t := timer1 s in
  let t := mkTimer1 (TCCR1A t) 0 (TCNT1 t) (OCR1A t) (TIMSK1 t) in
  let t := mkTimer1 (TCCR1A t) (TCCR1B t) (TCNT1 t) (OCR1A t) 0 in
  let s := set_timer1 t s in
  let s := digitalWrite_led false s in
  let s := set_PressCounter 0 s in
  set_Blink false s.

(** ** The main loop *)

(** [loop()] is four consecutive [if] blocks; each is embedded on its own
    and [loop] is their composition in source order. *)

(** Handle stop event (long press).  [delay(100)] only lets time pass. *)
Definition loop_stop (s : State) : State :=
  if actionStop s then
    let s := set_actionStop false s in
    let s := serial_out [SerialPrintln "!!! SYSTEM SHUTDOWN !!!"%string;
                         SerialPrintln "The system is turning OFF now..."%string] s in
    stopTimer s
  else s.

(** Handle short press event: feedback flash + counter print.  [now] is
    what [millis()] returns in this block. *)
Definition loop_short (now : Z) (s : State) : State :=
  if actionShort s then
    let s := set_actionShort false s in
    let s := serial_out [SerialPrint "Short press number: "%string;
                         SerialPrintlnInt (PressCounter s)] s in
    let s := digitalWrite_led true s in
    let s := set_feedbackLedOn true s in
    set_lastFlashStart now s
  else s.

(** End the feedback flash (non-blocking).  [now] is what [millis()]
    returns in the condition. *)
Definition loop_flash_end (now : Z) (s : State) : State :=
  if feedbackLedOn s && (200 <=? sub_ulong now (lastFlashStart s)) then
    let s := digitalWrite_led false s in
    set_feedbackLedOn false s
  else s.

(** Handle start event (medium press). *)
Definition loop_start (s : State) : State :=
  if actionStart s then
    let s := set_actionStart false s in
    if negb (Blink s) && (0 <? PressCounter s) then
      let s := serial_out [SerialPrint "Medium press. Starting with: "%string;
                           SerialPrintlnInt (PressCounter s)] s in
      let s := digitalWrite_led false s in
      let s := startTimer (PressCounter s) s in
      set_Blink true s
    else s
  else s.

(** One iteration of [loop()]; [m1] and [m2] are the two [millis()]
    readings of the iteration, in source order. *)
Definition loop (m1 m2 : Z) (s : State) : State :=
  loop_start (loop_flash_end m2 (loop_short m1 (loop_stop s))).

(** ** Derived notions used by the statements *)

(** The three-way branch of [buttonISR] on the measured duration
    (source lines 137, 144 and 148). *)
Inductive PressKind : Type := ShortPress | MediumPress | LongPress.

Definition classify (duration : Z) : PressKind :=
  if duration <? SHORT_PRESS_TIME then ShortPress
  else if duration <? LONG_PRESS_TIME then MediumPress
  else LongPress.

(** What each branch does to the state. *)
Definition on_release (k : PressKind) (s : State) : State :=
  match k with
  | ShortPress =>
      if negb (Blink s) then
        set_actionShort true
          (set_PressCounter (wrap_int (PressCounter s + 1)) s)
      else s
  | MediumPress => set_actionStart true s
  | LongPress => set_actionStop true s
  end.

(** The edge passes the debounce test of [buttonISR]. *)
Definition accepted (now : Z) (s : State) : bool :=
  negb (sub_ulong now (lastISRTime s) <? DEBOUNCE_TIME).

(** The value [startTimer] writes to [TCCR1B]: CTC mode, prescaler 1024. *)
Definition CTC_1024 : Z :=
  Z.lor (Z.lor (Z.shiftl 1 WGM12) (Z.shiftl 1 CS12)) (Z.shiftl 1 CS10).

(** Timer1 counts (the program writes only 0 or [CTC_1024] to [TCCR1B];
    0 stops the clock). *)
Definition timer1_clocked (t : Timer1) : bool := TCCR1B t =? CTC_1024.

(** The compare-match A interrupt is enabled. *)
Definition timer1_irq (t : Timer1) : bool := Z.testbit (TIMSK1 t) OCIE1A.

Definition timer_armed (s : State) : bool :=
  timer1_clocked (timer1 s) && timer1_irq (timer1 s).

Definition timer_disarmed (s : State) : Prop :=
  TCCR1B (timer1 s) = 0 /\ TIMSK1 (timer1 s) = 0.

(** One prescaled clock tick of Timer1 as the hardware performs it in the
    configuration [startTimer] selects: the counter runs from 0 up to
    [OCR1A], and the tick that finds it equal to [OCR1A] clears it and
    raises the compare-match interrupt, so the handler runs once every
    [OCR1A + 1] ticks (the source comment: [(7812 * counts) - 1] gives
    about 0.5 s * counts per toggle). *)
Definition timer1_tick (s : State) : State :=
  let t := timer1 s in
  if timer1_clocked t then
    if TCNT1 t =? OCR1A t then
      let s := set_timer1
                 (mkTimer1 (TCCR1A t) (TCCR1B t) 0 (OCR1A t) (TIMSK1 t)) s in
      if timer1_irq t then TIMER1_COMPA_vect s else s
    else
      set_timer1
        (mkTimer1 (TCCR1A t) (TCCR1B t) (wrap_u16 (TCNT1 t + 1)) (OCR1A t)
           (TIMSK1 t)) s
  else s.

(** Timer ticks between two LED toggles, and the same in microseconds. *)
Definition toggle_ticks (s : State) : Z := OCR1A (timer1 s) + 1.

Definition toggle_interval_us (s : State) : Z :=
  toggle_ticks s * 1000000 / TIMER1_HZ.

(** A full blink period is one on phase and one off phase. *)
Definition blink_period_us (s : State) : Z := 2 * toggle_interval_us s.

(** [t] microseconds is [ms] milliseconds to within one millisecond. *)
Definition within_1ms (t ms : Z) : Prop := Z.abs (t - 1000 * ms) < 1000.

(** The bucket mapping in the words of the specification
    (1 -> 1000ms, 2 -> 2000ms, 3 or more -> 3000ms); it is compared with
    what [startTimer] programs. *)
Definition spec_bucket_period_ms (n : Z) : Z :=
  if n =? 1 then 1000 else if n =? 2 then 2000 else 3000.

(** ** Executions *)

(** The three asynchronous sources of activity, each run to completion. *)
Inductive Event : Type :=
| Edge (now : Z) (pin : bool)     (* pin-change interrupt *)
| TimerTick                       (* one Timer1 clock tick *)
| LoopIter (m1 m2 : Z).           (* one iteration of loop() *)

Definition step (e : Event) (s : State) : State :=
  match e with
  | Edge now pin => buttonISR now pin s
  | TimerTick => timer1_tick s
  | LoopIter m1 m2 => loop m1 m2 s
  end.

Fixpoint run (es : list Event) (s : State) : State :=
  match es with
  | [] => s
  | e :: es' => run es' (step e s)
  end.

(** The event is an accepted button release the classifier takes for a
    medium press. *)
Definition is_medium_release (e : Event) (s : State) : bool :=
  match e with
  | Edge now false =>
      accepted now s &&
      match classify (sub_ulong now (pressTime s)) with
      | MediumPress => true
      | _ => false
      end
  | _ => false
  end.

(** No event of the execution is a medium release. *)
Fixpoint no_medium_release (es : list Event) (s : State) : bool :=
  match es with
  | [] => true
  | e :: es' => negb (is_medium_release e s) && no_medium_release es' (step e s)
  end.

(** Every field is in the range of its C type. *)
Definition wf_timer (t : Timer1) : Prop :=
  is_u8 (TCCR1A t) /\ is_u8 (TCCR1B t) /\ is_u16 (TCNT1 t) /\
  is_u16 (OCR1A t) /\ is_u8 (TIMSK1 t).

Definition wf (s : State) : Prop :=
  is_int (PressCounter s) /\ is_ulong (pressTime s) /\
  is_ulong (lastISRTime s) /\ is_ulong (lastFlashStart s) /\
  wf_timer (timer1 s).

(** The blink controller is idle and the LED is dark. *)
Definition idle (s : State) : Prop :=
  Blink s = false /\ led s = false /\ PressCounter s = 0 /\ timer_disarmed s.

(** The transition Idle -> Active was taken between [s] and [s']. *)
Definition blink_started (s s' : State) : Prop :=
  Blink s = false /\ Blink s' = true.

(** Blinking is off, no start event is pending and the timer interrupt
    is not armed. *)
Definition not_starting (s : State) : Prop :=
  actionStart s = false /\ Blink s = false /\ timer_armed s = false.

(** The readings an event carries are values of [unsigned long]. *)
Definition wf_event (e : Event) : Prop :=
  match e with
  | Edge now _ => is_ulong now
  | TimerTick => True
  | LoopIter m1 m2 => is_ulong m1 /\ is_ulong m2
  end.

(** The six things [buttonISR] can do. *)
Inductive IsrOutcome : Type :=
| Debounced | PressStart | ShortCounted | ShortIgnored | MediumRaised
| LongRaised.

(** Which of them it does, read off the conditions of [buttonISR] in
    source order. *)
Definition isr_outcome (now : Z) (pin : bool) (s : State) : IsrOutcome :=
  if accepted now s then
    if pin then PressStart
    else match classify (sub_ulong now (pressTime s)) with
         | ShortPress => if Blink s then ShortIgnored else ShortCounted
         | MediumPress => MediumRaised
         | LongPress => LongRaised
         end
  else Debounced.

(** The assignments [buttonISR] performs in each case. *)
Definition isr_effect (o : IsrOutcome) (now : Z) (s : State) : State :=
  match o with
  | Debounced => s
  | PressStart => set_pressTime now (set_lastISRTime now s)
  | ShortCounted =>
      set_actionShort true
        (set_PressCounter (wrap_int (PressCounter s + 1))
           (set_lastISRTime now s))
  | ShortIgnored => set_lastISRTime now s
  | MediumRaised => set_actionStart true (set_lastISRTime now s)
  | LongRaised => set_actionStop true (set_lastISRTime now s)
  end.

(** Nothing is pending for the loop. *)
Definition quiescent (s : State) : Prop :=
  actionStop s = false /\ actionShort s = false /\ actionStart s = false /\
  feedbackLedOn s = false.

(** ** Sample states and executions *)

(** A state with [n] counted presses and a pending medium-press event,
    otherwise as after boot. *)
Definition pending_start (n : Z) : State :=
  set_actionStart true (set_PressCounter n boot).

(** A press that started at 1000ms, after an earlier edge at 0ms. *)
Definition pressed_at_1000 : State := set_pressTime 1000 (set_lastISRTime 1000 boot).

(** Two short presses counted, blinking not started. *)
Definition counted_two : State := set_PressCounter 2 pressed_at_1000.

(** Blinking with three counted presses, and a long press pending. *)
Definition blinking_stop_pending : State :=
  set_actionStop true (loop_start (pending_start 3)).

(** A flash started at 1000ms is still active, and a second short-press
    event is pending. *)
Definition flashing_short_pending : State :=
  set_actionShort true (loop_short 1000 (set_actionShort true boot)).

(** All three events pending at once. *)
Definition all_pending : State :=
  set_actionStop true (set_actionShort true (pending_start 1)).

(** The counter at the top of its range, Blink off, a press in
    progress. *)
Definition counter_at_max : State := set_PressCounter INT_MAX pressed_at_1000.

(** After a medium press with nothing counted: a short press (down at
    5000ms, up at 5300ms), handled by the loop, then a timer tick and
    another iteration. *)
Definition after_empty_start : list Event :=
  [Edge 5000 true; Edge 5300 false; LoopIter 5301 5301; TimerTick;
   LoopIter 5600 5600].

(** ** Notions for whole executions *)

(** How the software flag, the timer registers, the counter and the LED
    hang together in the states the program reaches. *)
Definition consistent (s : State) : Prop :=
  (Blink s = true ->
     TCCR1B (timer1 s) = CTC_1024 /\ TIMSK1 (timer1 s) = 2 /\
     0 < PressCounter s /\
     OCR1A (timer1 s) = (7812 * PressCounter s - 1) mod 65536 /\
     actionShort s = false) /\
  (Blink s = false ->
     TCCR1B (timer1 s) = 0 /\ TIMSK1 (timer1 s) = 0 /\
     (feedbackLedOn s = false -> led s = false)) /\
  0 <= TCNT1 (timer1 s) <= OCR1A (timer1 s).

(** Number of edges of an execution on which the pin reads LOW. *)
Fixpoint low_edges (es : list Event) : Z :=
  match es with
  | [] => 0
  | Edge _ false :: es' => 1 + low_edges es'
  | _ :: es' => low_edges es'
  end.

(** Two short presses, a medium press, and one loop iteration after
    each release. *)
Definition short_short_medium : list Event :=
  [Edge 100 true; Edge 400 false; LoopIter 401 401;
   Edge 1000 true; Edge 1300 false; LoopIter 1301 1301;
   Edge 2000 true; Edge 4000 false; LoopIter 4001 4001].

(** The edges of a series of presses, each given by the clock readings
    at button down and button up. *)
Fixpoint presses (ps : list (Z * Z)) : list Event :=
  match ps with
  | [] => []
  | (down, up) :: ps' => Edge down true :: Edge up false :: presses ps'
  end.

(** Clean short presses: every edge at least 50ms after the one before
    (the first after [last]), every press shorter than 1500ms, and the
    millisecond clock not wrapping. *)
Fixpoint clean_short (last : Z) (ps : list (Z * Z)) : Prop :=
  match ps with
  | [] => True
  | (down, up) :: ps' =>
      last + 50 <= down /\ down + 50 <= up < down + 1500 /\
      up < ULONG_MOD /\ clean_short up ps'
  end.

Arguments wrap_int : simpl never.
Arguments wrap_u8 : simpl never.
Arguments wrap_u16 : simpl never.
Arguments sub_ulong : simpl never.

(** * Lemmas *)

(** ** Machine arithmetic *)

Lemma wrap_int_small (x : Z) : is_int x -> wrap_int x = x.
Proof.
  unfold is_int, INT_MIN, INT_MAX, wrap_int. intros H.
  rewrite Z.mod_small by lia. lia.
Qed.

Lemma wrap_int_range (x : Z) : is_int (wrap_int x).
Proof.
  unfold is_int, INT_MIN, INT_MAX, wrap_int.
  pose proof (Z.mod_pos_bound (x + 32768) 65536). lia.
Qed.

Lemma wrap_u16_wrap_int (x : Z) : wrap_u16 (wrap_int x) = wrap_u16 x.
Proof.
  unfold wrap_u16, wrap_int.
  rewrite Zminus_mod_idemp_l. f_equal. lia.
Qed.

Lemma wrap_u16_range (x : Z) : is_u16 (wrap_u16 x).
Proof. unfold is_u16, wrap_u16. apply Z.mod_pos_bound. lia. Qed.

Lemma wrap_u8_range (x : Z) : is_u8 (wrap_u8 x).
Proof. unfold is_u8, wrap_u8. apply Z.mod_pos_bound. lia. Qed.

(** Without a wrap of the millisecond clock in between, the 32-bit
    difference is the elapsed time. *)
Lemma sub_ulong_elapsed (a b : Z) :
  is_ulong a -> is_ulong b -> b <= a -> sub_ulong a b = a - b.
Proof.
  unfold is_ulong, sub_ulong, wrap_ulong, ULONG_MOD. intros Ha Hb Hle.
  apply Z.mod_small. lia.
Qed.

(** The compare value [startTimer] computes is [7812 * counts - 1] reduced
    to 16 bits. *)
Lemma ocr_value (counts : Z) :
  wrap_u16 (wrap_int (wrap_int (7812 * counts) - 1)) =
  (7812 * counts - 1) mod 65536.
Proof.
  rewrite wrap_u16_wrap_int. unfold wrap_u16, wrap_int.
  replace ((7812 * counts + 32768) mod 65536 - 32768 - 1)
    with ((7812 * counts + 32768) mod 65536 - 32769) by lia.
  rewrite Zminus_mod_idemp_l. f_equal. lia.
Qed.

(** ** The button handler, case by case *)

Lemma buttonISR_debounced (now : Z) (pin : bool) (s : State) :
  accepted now s = false -> buttonISR now pin s = s.
Proof.
  unfold accepted, buttonISR. intros H.
  apply negb_false_iff in H. now rewrite H.
Qed.

Lemma buttonISR_press (now : Z) (s : State) :
  accepted now s = true ->
  buttonISR now true s = set_pressTime now (set_lastISRTime now s).
Proof.
  unfold accepted, buttonISR. intros H.
  apply negb_true_iff in H. now rewrite H.
Qed.

Lemma buttonISR_release (now : Z) (s : State) :
  accepted now s = true ->
  buttonISR now false s =
  on_release (classify (sub_ulong now (pressTime s))) (set_lastISRTime now s).
Proof.
  unfold accepted, buttonISR, classify. intros H.
  apply negb_true_iff in H. rewrite H. cbn [pressTime set_lastISRTime].
  destruct (sub_ulong now (pressTime s) <? SHORT_PRESS_TIME); [reflexivity|].
  destruct (sub_ulong now (pressTime s) <? LONG_PRESS_TIME); reflexivity.
Qed.

Lemma accepted_true (now : Z) (s : State) :
  accepted now s = true <-> 50 <= sub_ulong now (lastISRTime s).
Proof.
  unfold accepted, DEBOUNCE_TIME. rewrite negb_true_iff, Z.ltb_ge. tauto.
Qed.

Lemma accepted_false (now : Z) (s : State) :
  accepted now s = false <-> sub_ulong now (lastISRTime s) < 50.
Proof.
  unfold accepted, DEBOUNCE_TIME. rewrite negb_false_iff, Z.ltb_lt. tauto.
Qed.

Lemma classify_spec (D : Z) :
  (D < 1500 -> classify D = ShortPress) /\
  (1500 <= D < 4000 -> classify D = MediumPress) /\
  (4000 <= D -> classify D = LongPress).
Proof.
  unfold classify, SHORT_PRESS_TIME, LONG_PRESS_TIME.
  destruct (Z.ltb_spec D 1500); destruct (Z.ltb_spec D 4000);
    repeat split; intros; try reflexivity; lia.
Qed.

(** ** Timer control *)

Lemma startTimer_regs (counts : Z) (s : State) :
  timer1 (startTimer counts s) =
  mkTimer1 0 CTC_1024 0
    ((7812 * (if counts =? 0 then 1 else counts) - 1) mod 65536)
    (wrap_u8 (Z.lor (TIMSK1 (timer1 s)) 2)).
Proof.
  unfold startTimer. cbn [timer1 set_timer1 TCCR1A TCCR1B TCNT1 OCR1A TIMSK1].
  rewrite ocr_value. reflexivity.
Qed.

Lemma startTimer_frame (counts : Z) (s : State) :
  startTimer counts s = set_timer1 (timer1 (startTimer counts s)) s.
Proof. reflexivity. Qed.

Lemma lor_2_bit1 (x : Z) : Z.testbit (wrap_u8 (Z.lor x 2)) OCIE1A = true.
Proof.
  unfold wrap_u8, OCIE1A. change 256 with (2 ^ 8).
  rewrite Z.mod_pow2_bits_low by lia.
  rewrite Z.lor_spec. apply orb_true_r.
Qed.

Lemma startTimer_armed (counts : Z) (s : State) :
  timer_armed (startTimer counts s) = true.
Proof.
  unfold timer_armed, timer1_clocked, timer1_irq.
  rewrite startTimer_regs. cbn [TCCR1B TIMSK1].
  rewrite Z.eqb_refl, lor_2_bit1. reflexivity.
Qed.

Lemma stopTimer_disarmed (s : State) : timer_disarmed (stopTimer s).
Proof. split; reflexivity. Qed.

Lemma disarmed_not_armed (s : State) : timer_disarmed s -> timer_armed s = false.
Proof.
  unfold timer_disarmed, timer_armed, timer1_clocked. intros [Hb _].
  rewrite Hb. reflexivity.
Qed.

Lemma stopTimer_idempotent (s : State) : stopTimer (stopTimer s) = stopTimer s.
Proof. reflexivity. Qed.

(** ** The hardware counter *)

(** While the counter is below the compare value a tick only advances
    it. *)
Lemma ticks_below (k : nat) (s : State) :
  timer1_clocked (timer1 s) = true ->
  TCNT1 (timer1 s) = 0 ->
  is_u16 (OCR1A (timer1 s)) ->
  Z.of_nat k <= OCR1A (timer1 s) ->
  Nat.iter k timer1_tick s =
  set_timer1 (mkTimer1 (TCCR1A (timer1 s)) (TCCR1B (timer1 s)) (Z.of_nat k)
                (OCR1A (timer1 s)) (TIMSK1 (timer1 s))) s.
Proof.
  intros Hc H0 Hr. induction k as [|k IH]; intros Hk.
  - change (Nat.iter 0 timer1_tick s) with s. change (Z.of_nat 0) with 0.
    rewrite <- H0. now destruct s as [? ? ? ? ? ? ? ? ? ? [] ?].
  - rewrite Nat.iter_succ, IH by lia.
    unfold timer1_tick. cbn [timer1 set_timer1 TCNT1 OCR1A TCCR1A TCCR1B TIMSK1].
    unfold timer1_clocked in *. cbn [TCCR1B]. rewrite Hc.
    destruct (Z.eqb_spec (Z.of_nat k) (OCR1A (timer1 s))) as [E|_]; [lia|].
    unfold set_timer1. cbn. do 2 f_equal.
    unfold is_u16 in Hr. unfold wrap_u16. rewrite Z.mod_small by lia. lia.
Qed.

(** From a cleared counter the compare-match handler runs at tick
    [OCR1A + 1], not before, and the counter is clear again: the LED
    changes level once per [toggle_ticks]. *)
Lemma toggle_every_toggle_ticks (s : State) :
  timer_armed s = true ->
  TCNT1 (timer1 s) = 0 ->
  is_u16 (OCR1A (timer1 s)) ->
  (forall k, (Z.of_nat k < toggle_ticks s) ->
             led (Nat.iter k timer1_tick s) = led s) /\
  Nat.iter (Z.to_nat (toggle_ticks s)) timer1_tick s =
  digitalWrite_led (negb (led s)) s.
Proof.
  unfold timer_armed, toggle_ticks. intros Ha H0 Hr.
  apply andb_true_iff in Ha. destruct Ha as [Hc Hi]. split.
  - intros k Hk. rewrite ticks_below by (auto; lia). reflexivity.
  - replace (Z.to_nat (OCR1A (timer1 s) + 1))
      with (S (Z.to_nat (OCR1A (timer1 s)))) by (unfold is_u16 in Hr; lia).
    rewrite Nat.iter_succ, ticks_below by (auto; unfold is_u16 in Hr; lia).
    unfold timer1_tick. cbn [timer1 set_timer1 TCNT1 OCR1A TCCR1A TCCR1B TIMSK1].
    unfold timer1_clocked, timer1_irq in *. cbn [TCCR1B TIMSK1].
    rewrite Hc, Hi. rewrite Z2Nat.id by (unfold is_u16 in Hr; lia).
    rewrite Z.eqb_refl. unfold TIMER1_COMPA_vect, digitalWrite_led, set_timer1.
    cbn. rewrite <- H0. now destruct s as [? ? ? ? ? ? ? ? ? ? [] ?].
Qed.

Lemma timer1_tick_stopped (s : State) :
  timer_disarmed s -> timer1_tick s = s.
Proof.
  unfold timer_disarmed, timer1_tick, timer1_clocked. intros [Hb _].
  rewrite Hb. reflexivity.
Qed.

(** ** The blocks of the main loop *)

(** Evaluate the blocks of the loop, the setters and the field accesses,
    leaving the arithmetic and [startTimer] folded. *)
Ltac blocks :=
  cbv beta iota zeta delta
    [loop loop_start loop_flash_end loop_short loop_stop stopTimer
     TIMER1_COMPA_vect
     set_PressCounter set_pressTime set_lastISRTime set_actionShort
     set_actionStart set_actionStop set_Blink set_lastFlashStart
     set_feedbackLedOn digitalWrite_led set_timer1 serial_out
     PressCounter pressTime lastISRTime actionShort actionStart actionStop
     Blink lastFlashStart feedbackLedOn led timer1 serial
     TCCR1A TCCR1B TCNT1 OCR1A TIMSK1 andb negb].

(** Case analysis on a condition that contains no other conditional. *)
Ltac split_if :=
  match goal with
  | |- context [if ?b then _ else _] =>
      lazymatch b with
      | context [if _ then _ else _] => fail
      | _ => destruct b eqn:?
      end
  end.

Ltac split_ifs := repeat (blocks; split_if); blocks.

(** Follow every branch of the loop on a state given field by field. *)
Ltac handler := split_ifs; try reflexivity; try congruence.

Lemma loop_stop_skip (s : State) : actionStop s = false -> loop_stop s = s.
Proof. unfold loop_stop. now intros ->. Qed.

Lemma loop_short_skip (now : Z) (s : State) :
  actionShort s = false -> loop_short now s = s.
Proof. unfold loop_short. now intros ->. Qed.

Lemma loop_flash_end_skip (now : Z) (s : State) :
  feedbackLedOn s = false -> loop_flash_end now s = s.
Proof. unfold loop_flash_end. now intros ->. Qed.

Lemma loop_start_skip (s : State) : actionStart s = false -> loop_start s = s.
Proof. unfold loop_start. now intros ->. Qed.

(** The first three blocks leave the inputs of the start block alone,
    unless a stop is pending. *)
Lemma before_start_frame (m1 m2 : Z) (s : State) :
  actionStop s = false ->
  let s1 := loop_flash_end m2 (loop_short m1 (loop_stop s)) in
  PressCounter s1 = PressCounter s /\ Blink s1 = Blink s /\
  actionStart s1 = actionStart s /\ timer1 s1 = timer1 s /\
  actionStop s1 = false.
Proof.
  intros H. rewrite (loop_stop_skip s H). cbn zeta.
  destruct s as [pc pt li ash ast asp bl lf fb ld tm sr].
  destruct ash, fb; handler; auto.
Qed.

(** The debounce timestamp is read by no block of the loop. *)
Lemma loop_stop_lastISRTime (now : Z) (s : State) :
  loop_stop (set_lastISRTime now s) = set_lastISRTime now (loop_stop s).
Proof. destruct s; handler. Qed.

Lemma loop_short_lastISRTime (now m : Z) (s : State) :
  loop_short m (set_lastISRTime now s) = set_lastISRTime now (loop_short m s).
Proof. destruct s; handler. Qed.

Lemma loop_flash_end_lastISRTime (now m : Z) (s : State) :
  loop_flash_end m (set_lastISRTime now s) =
  set_lastISRTime now (loop_flash_end m s).
Proof. destruct s; handler. Qed.

Lemma loop_start_lastISRTime (now : Z) (s : State) :
  loop_start (set_lastISRTime now s) = set_lastISRTime now (loop_start s).
Proof. destruct s; handler. Qed.

Lemma loop_lastISRTime (now m1 m2 : Z) (s : State) :
  loop m1 m2 (set_lastISRTime now s) = set_lastISRTime now (loop m1 m2 s).
Proof.
  unfold loop.
  now rewrite loop_stop_lastISRTime, loop_short_lastISRTime,
    loop_flash_end_lastISRTime, loop_start_lastISRTime.
Qed.

(** What the start block does when its guard holds. *)
Lemma loop_start_fires (s : State) :
  actionStart s = true -> Blink s = false -> 0 < PressCounter s ->
  loop_start s =
  set_Blink true
    (startTimer (PressCounter s)
       (digitalWrite_led false
          (serial_out [SerialPrint "Medium press. Starting with: "%string;
                       SerialPrintlnInt (PressCounter s)]
             (set_actionStart false s)))).
Proof.
  intros Hf Hb Hp. unfold loop_start. rewrite Hf. cbn [Blink set_actionStart].
  rewrite Hb. cbn [PressCounter set_actionStart].
  apply Z.ltb_lt in Hp. rewrite Hp. reflexivity.
Qed.

(** What it does when the guard fails: only the flag is cleared. *)
Lemma loop_start_discards (s : State) :
  actionStart s = true -> Blink s = true \/ PressCounter s <= 0 ->
  loop_start s = set_actionStart false s.
Proof.
  intros Hf Hg. unfold loop_start. rewrite Hf. cbn [Blink PressCounter set_actionStart].
  destruct Hg as [Hb|Hp].
  - rewrite Hb. reflexivity.
  - apply Z.ltb_ge in Hp. rewrite Hp, andb_false_r. reflexivity.
Qed.

Lemma interval_of_ticks (n : Z) : 7812 * n * 1000000 / TIMER1_HZ = 499968 * n.
Proof.
  change TIMER1_HZ with 15625.
  replace (7812 * n * 1000000) with (499968 * n * 15625) by lia.
  apply Z.div_mul. lia.
Qed.

(** * The claims *)

(** C1, as stated, fails: the code has no three-way bucket.  With four or
    five counted presses the timer is programmed for a blink period of
    about 4000ms and 5000ms, and neither the period nor the interval
    between two toggles is the 3000ms the bucket mapping gives. *)
Lemma bucket_mapping_fails_above_three :
  blink_period_us (loop_start (pending_start 4)) = 3999744 /\
  blink_period_us (loop_start (pending_start 5)) = 4999680 /\
  ~ within_1ms (blink_period_us (loop_start (pending_start 4)))
      (spec_bucket_period_ms 4) /\
  ~ within_1ms (blink_period_us (loop_start (pending_start 5)))
      (spec_bucket_period_ms 5) /\
  ~ within_1ms (toggle_interval_us (loop_start (pending_start 5)))
      (spec_bucket_period_ms 5) /\
  ~ within_1ms (blink_period_us (loop 0 0 (pending_start 5)))
      (spec_bucket_period_ms 5).
Proof.
  repeat split; try (vm_compute; reflexivity);
    intros H; vm_compute in H; discriminate H.
Qed.

(** C1, amended: when a medium-press event is consumed with Blink off and
    PressCounter = n, 1 <= n <= 8, the timer is armed with compare value
    7812*n - 1, so the LED toggles every 7812*n ticks (499968*n us) and
    the blink period is 999936*n us, that is n * 1000ms to within a
    millisecond: 1000ms, 2000ms and 3000ms for n = 1, 2, 3, where it
    agrees with the bucket mapping, and n * 1000ms beyond (5000ms for
    n = 5).  Counting ticks from the start, the LED keeps its level for
    7812*n - 1 ticks and has the opposite level after tick 7812*n.  The
    same period results from a whole loop iteration without a pending
    stop. *)
Theorem blink_period_linear (n : Z) (s : State) :
  1 <= n <= 8 -> PressCounter s = n ->
  actionStart s = true -> Blink s = false ->
  let s' := loop_start s in
  Blink s' = true /\ timer_armed s' = true /\
  OCR1A (timer1 s') = 7812 * n - 1 /\
  toggle_ticks s' = 7812 * n /\
  toggle_interval_us s' = 499968 * n /\
  blink_period_us s' = 999936 * n /\
  within_1ms (blink_period_us s') (1000 * n) /\
  (n <= 3 -> within_1ms (blink_period_us s') (spec_bucket_period_ms n)) /\
  (forall k, Z.of_nat k < 7812 * n ->
     led (Nat.iter k timer1_tick s') = led s') /\
  led (Nat.iter (Z.to_nat (7812 * n)) timer1_tick s') = negb (led s') /\
  (forall m1 m2, actionStop s = false ->
     blink_period_us (loop m1 m2 s) = 999936 * n).
Proof.
  intros Hn Hc Hf Hb.
  assert (Hfire : forall s0, PressCounter s0 = n -> actionStart s0 = true ->
            Blink s0 = false ->
            Blink (loop_start s0) = true /\
            timer_armed (loop_start s0) = true /\
            OCR1A (timer1 (loop_start s0)) = 7812 * n - 1 /\
            TCNT1 (timer1 (loop_start s0)) = 0).
  { intros s0 Hc0 Hf0 Hb0.
    rewrite (loop_start_fires s0 Hf0 Hb0) by lia.
    split; [reflexivity|]. split; [|split].
    - unfold timer_armed. cbn [timer1 set_Blink]. apply startTimer_armed.
    - cbn [timer1 set_Blink]. rewrite startTimer_regs. cbn [OCR1A].
      rewrite Hc0. destruct (Z.eqb_spec n 0) as [E|_]; [lia|].
      apply Z.mod_small. lia.
    - cbn [timer1 set_Blink]. rewrite startTimer_regs. reflexivity. }
  assert (Hper : forall s1, OCR1A (timer1 s1) = 7812 * n - 1 ->
            toggle_ticks s1 = 7812 * n /\
            toggle_interval_us s1 = 499968 * n /\
            blink_period_us s1 = 999936 * n).
  { intros s1 Ho. unfold blink_period_us, toggle_interval_us, toggle_ticks.
    rewrite Ho. replace (7812 * n - 1 + 1) with (7812 * n) by lia.
    rewrite interval_of_ticks. repeat split; lia. }
  destruct (Hfire s Hc Hf Hb) as (HB & HA & HO & HC).
  destruct (Hper _ HO) as (HT & HI & HP).
  assert (Hr : is_u16 (OCR1A (timer1 (loop_start s))))
    by (rewrite HO; unfold is_u16; lia).
  destruct (toggle_every_toggle_ticks (loop_start s) HA HC Hr) as (Hk & Hflip).
  rewrite HT in Hk, Hflip.
  cbn zeta. repeat split; auto.
  - rewrite HP. unfold within_1ms. lia.
  - intros Hle. rewrite HP. unfold within_1ms, spec_bucket_period_ms.
    destruct (Z.eqb_spec n 1); [lia|]. destruct (Z.eqb_spec n 2); lia.
  - rewrite Hflip. reflexivity.
  - intros m1 m2 Hs. unfold loop.
    destruct (before_start_frame m1 m2 s Hs) as (E1 & E2 & E3 & _).
    rewrite Hc in E1. rewrite Hf in E3. rewrite Hb in E2.
    destruct (Hfire _ E1 E3 E2) as (_ & _ & HO' & _).
    apply (Hper _ HO').
Qed.

Lemma blink_period_linear_witness :
  blink_period_us (loop_start (pending_start 5)) = 999936 * 5 /\
  within_1ms (blink_period_us (loop_start (pending_start 5))) (1000 * 5).
Proof.
  pose proof (blink_period_linear 5 (pending_start 5)
                ltac:(lia) eq_refl eq_refl eq_refl) as H.
  cbn zeta in H. split; apply H.
Defined.

(** C2: a press of duration D is classified short when D < 1500, medium
    when 1500 <= D < 4000 and long when D >= 4000; the durations 1499,
    1500, 3999, 4000 and 4001 are short, medium, medium, long and long.
    On an accepted release edge [buttonISR] acts on exactly that class of
    the measured duration. *)
Theorem press_classification (D : Z) :
  ((D < 1500 -> classify D = ShortPress) /\
   (1500 <= D < 4000 -> classify D = MediumPress) /\
   (4000 <= D -> classify D = LongPress)) /\
  (classify 1499 = ShortPress /\ classify 1500 = MediumPress /\
   classify 3999 = MediumPress /\ classify 4000 = LongPress /\
   classify 4001 = LongPress) /\
  (forall now s,
     accepted now s = true -> sub_ulong now (pressTime s) = D ->
     buttonISR now false s = on_release (classify D) (set_lastISRTime now s)).
Proof.
  split; [apply classify_spec|]. split.
  - repeat split; reflexivity.
  - intros now s Ha <-. now apply buttonISR_release.
Qed.

Lemma press_classification_witness :
  classify 1499 = ShortPress /\ classify 1500 = MediumPress /\
  classify 3999 = MediumPress /\ classify 4000 = LongPress /\
  actionStart (buttonISR 2500 false pressed_at_1000) = true /\
  actionStop (buttonISR 5000 false pressed_at_1000) = true.
Proof.
  split; [apply (proj1 (press_classification 1499)); lia|].
  split; [apply (proj1 (press_classification 1500)); lia|].
  split; [apply (proj1 (press_classification 3999)); lia|].
  split; [apply (proj1 (press_classification 4000)); lia|].
  split.
  - rewrite (proj2 (proj2 (press_classification 1500)) 2500 pressed_at_1000
               eq_refl eq_refl).
    reflexivity.
  - rewrite (proj2 (proj2 (press_classification 4000)) 5000 pressed_at_1000
               eq_refl eq_refl).
    reflexivity.
Defined.

(** C3: on the release of a short press (duration < 1500ms, edge past the
    debounce window), if Blink is off the counter goes up by exactly one
    and actionShort is raised; if Blink is on, the counter, the three
    flags, the LED and the flasher are as before (only the debounce
    timestamp moves), and the next loop iteration does what it would have
    done without the press, so no flash is triggered. *)
Theorem short_press_counts_unless_blinking (now : Z) (s : State) :
  accepted now s = true ->
  sub_ulong now (pressTime s) < 1500 ->
  let s' := buttonISR now false s in
  (Blink s = false ->
     actionShort s' = true /\
     PressCounter s' = wrap_int (PressCounter s + 1) /\
     (is_int (PressCounter s) -> PressCounter s < INT_MAX ->
        PressCounter s' = PressCounter s + 1 /\
        s' = set_actionShort true
               (set_PressCounter (PressCounter s + 1)
                  (set_lastISRTime now s)))) /\
  (Blink s = true ->
     s' = set_lastISRTime now s /\
     PressCounter s' = PressCounter s /\
     actionShort s' = actionShort s /\ actionStart s' = actionStart s /\
     actionStop s' = actionStop s /\
     led s' = led s /\ feedbackLedOn s' = feedbackLedOn s /\
     lastFlashStart s' = lastFlashStart s /\
     forall m1 m2, loop m1 m2 s' = set_lastISRTime now (loop m1 m2 s)).
Proof.
  intros Ha Hd. cbn zeta. rewrite (buttonISR_release now s Ha).
  destruct (classify_spec (sub_ulong now (pressTime s))) as (Hs & _ & _).
  rewrite (Hs Hd). unfold on_release. cbn [Blink PressCounter set_lastISRTime].
  split; intros Hb; rewrite Hb; cbn [negb].
  - split; [reflexivity|]. split; [reflexivity|].
    intros Hint Hmax. rewrite wrap_int_small
      by (unfold is_int, INT_MIN, INT_MAX in *; lia).
    split; reflexivity.
  - repeat split. intros m1 m2. apply loop_lastISRTime.
Qed.

Lemma short_press_counts_unless_blinking_witness :
  PressCounter (buttonISR 1200 false counted_two) = 3 /\
  actionShort (buttonISR 1200 false counted_two) = true /\
  PressCounter (buttonISR 1200 false (set_Blink true counted_two)) = 2 /\
  actionShort (buttonISR 1200 false (set_Blink true counted_two)) = false.
Proof.
  pose proof (short_press_counts_unless_blinking 1200 counted_two
                eq_refl eq_refl) as H.
  pose proof (short_press_counts_unless_blinking 1200 (set_Blink true counted_two)
                eq_refl eq_refl) as H'.
  cbn zeta in H, H'.
  assert (Hint : is_int (PressCounter counted_two)) by (split; discriminate).
  destruct (proj1 H eq_refl) as (E2 & _ & E1).
  destruct (E1 Hint eq_refl) as (E1' & _).
  destruct (proj2 H' eq_refl) as (_ & E3 & E4 & _).
  repeat split; assumption.
Defined.

(** ** Frames of the blocks *)

Lemma loop_short_frame (m : Z) (s : State) :
  let s' := loop_short m s in
  PressCounter s' = PressCounter s /\ Blink s' = Blink s /\
  timer1 s' = timer1 s /\ actionStart s' = actionStart s /\
  actionStop s' = actionStop s /\ actionShort s' = false.
Proof. destruct s as [pc pt li ash ast asp bl lf fb ld tm sr]; destruct ash; handler; auto 10. Qed.

Lemma loop_flash_end_frame (m : Z) (s : State) :
  let s' := loop_flash_end m s in
  PressCounter s' = PressCounter s /\ Blink s' = Blink s /\
  timer1 s' = timer1 s /\ actionStart s' = actionStart s /\
  actionStop s' = actionStop s /\ actionShort s' = actionShort s /\
  lastFlashStart s' = lastFlashStart s.
Proof. destruct s as [pc pt li ash ast asp bl lf fb ld tm sr]; destruct fb; handler; auto 10. Qed.

(** The start block with a failing guard, whatever the flag. *)
Lemma loop_start_guard_fails (s : State) :
  Blink s = true \/ PressCounter s <= 0 ->
  loop_start s = set_actionStart false s.
Proof.
  intros Hg. destruct (actionStart s) eqn:Hf.
  - now apply loop_start_discards.
  - rewrite loop_start_skip by assumption.
    destruct s; cbn in Hf; subst; reflexivity.
Qed.

(** C4: consuming a stop event disarms the timer, turns the LED off,
    resets PressCounter to 0 and clears Blink and the flag, from any
    state; the timer then no longer toggles the LED.  Stopping twice is
    stopping once, and from an idle state the block only clears the flag
    (and prints its two lines).  A whole loop iteration that consumes a
    stop ends disarmed with counter 0, Blink off, the flag clear, and the
    LED off unless a short-press event was pending too. *)
Theorem stop_resets (s : State) :
  actionStop s = true ->
  let s' := loop_stop s in
  (timer_disarmed s' /\ timer_armed s' = false /\ led s' = false /\
   PressCounter s' = 0 /\ Blink s' = false /\ actionStop s' = false /\
   timer1_tick s' = s') /\
  (loop_stop s' = s' /\ stopTimer (stopTimer s) = stopTimer s) /\
  (idle s ->
     idle s' /\
     s' = serial_out [SerialPrintln "!!! SYSTEM SHUTDOWN !!!"%string;
                      SerialPrintln "The system is turning OFF now..."%string]
            (set_actionStop false s)) /\
  (forall m1 m2,
     let s2 := loop m1 m2 s in
     timer_disarmed s2 /\ PressCounter s2 = 0 /\ Blink s2 = false /\
     actionStop s2 = false /\ (actionShort s = false -> led s2 = false)).
Proof.
  intros Hf. cbn zeta.
  assert (E : loop_stop s =
              stopTimer (serial_out
                 [SerialPrintln "!!! SYSTEM SHUTDOWN !!!"%string;
                  SerialPrintln "The system is turning OFF now..."%string]
                 (set_actionStop false s))).
  { unfold loop_stop. now rewrite Hf. }
  assert (Hd : timer_disarmed (loop_stop s)) by (rewrite E; apply stopTimer_disarmed).
  split; [|split; [|split]].
  - repeat split; try apply Hd; try (rewrite E; reflexivity).
  - split; [|apply stopTimer_idempotent].
    apply loop_stop_skip. rewrite E. reflexivity.
  - intros (Hb & Hl & Hc & Ht1 & Ht2). split.
    + rewrite E. repeat split.
    + rewrite E. destruct s as [pc pt li ash ast asp bl lf fb ld [a b c d e] sr].
      cbn in *. subst. reflexivity.
  - intros m1 m2. cbn zeta. unfold loop.
    set (s1 := loop_stop s) in *.
    destruct (loop_short_frame m1 s1) as (P1 & B1 & T1 & _ & A1 & S1).
    destruct (loop_flash_end_frame m2 (loop_short m1 s1)) as (P2 & B2 & T2 & _ & A2 & _).
    set (s3 := loop_flash_end m2 (loop_short m1 s1)) in *.
    assert (P3 : PressCounter s3 = 0) by (rewrite P2, P1; subst s1; rewrite E; reflexivity).
    rewrite (loop_start_guard_fails s3) by (right; lia).
    cbn [PressCounter Blink actionStop led timer1 set_actionStart].
    unfold timer_disarmed. cbn [timer1 set_actionStart].
    rewrite T2, T1, B2, B1, A2, A1.
    repeat split; try apply Hd; auto; try (subst s1; rewrite E; reflexivity).
    intros Hs. subst s3.
    assert (Hs1 : actionShort s1 = false) by (subst s1; rewrite E; exact Hs).
    rewrite (loop_short_skip m1 s1 Hs1).
    assert (Hl : led s1 = false) by (subst s1; rewrite E; reflexivity).
    clearbody s1. clear - Hl.
    destruct s1 as [pc pt li ash ast asp bl lf fb ld tm sr]. cbn in Hl. subst.
    destruct fb; handler.
Qed.

Lemma stop_resets_witness :
  Blink blinking_stop_pending = true /\
  timer_armed blinking_stop_pending = true /\
  timer_armed (loop_stop blinking_stop_pending) = false /\
  PressCounter (loop_stop blinking_stop_pending) = 0 /\
  led (loop 0 0 blinking_stop_pending) = false.
Proof.
  pose proof (stop_resets blinking_stop_pending eq_refl) as H. cbn zeta in H.
  destruct H as ((_ & H1 & _ & H2 & _) & _ & _ & H3).
  destruct (H3 0 0) as (_ & _ & _ & _ & H4).
  split; [reflexivity|]. split; [reflexivity|].
  split; [exact H1|]. split; [exact H2|]. apply H4. reflexivity.
Defined.

(** C5: consuming a medium-press event starts blinking exactly when Blink
    is off and PressCounter > 0.  On entry Blink is set, the LED is off,
    the counter register is cleared and the timer is armed in CTC mode
    with the compare value [startTimer] derives from PressCounter; the
    flag is cleared.  While Blink is on, the event changes nothing but
    its own flag, so Blink, the LED and the timer registers stay as they
    are.  The same equivalence holds for a whole loop iteration without
    a pending stop. *)
Theorem start_iff_guard (s : State) :
  actionStart s = true ->
  let s' := loop_start s in
  (blink_started s s' <-> Blink s = false /\ 0 < PressCounter s) /\
  (Blink s = false -> 0 < PressCounter s ->
     Blink s' = true /\ led s' = false /\ timer_armed s' = true /\
     TCNT1 (timer1 s') = 0 /\ TCCR1B (timer1 s') = CTC_1024 /\
     OCR1A (timer1 s') = (7812 * PressCounter s - 1) mod 65536 /\
     actionStart s' = false /\ PressCounter s' = PressCounter s) /\
  (Blink s = true ->
     s' = set_actionStart false s /\
     Blink s' = true /\ led s' = led s /\ timer1 s' = timer1 s) /\
  (forall m1 m2, actionStop s = false ->
     (blink_started s (loop m1 m2 s) <-> Blink s = false /\ 0 < PressCounter s)).
Proof.
  intros Hf. cbn zeta.
  assert (Hiff : forall s0, actionStart s0 = true ->
            (Blink (loop_start s0) = true <->
             Blink s0 = true \/ 0 < PressCounter s0)).
  { intros s0 Hf0. destruct (Blink s0) eqn:Hb.
    - rewrite loop_start_guard_fails by auto. cbn [Blink set_actionStart].
      rewrite Hb. tauto.
    - destruct (Z.ltb_spec 0 (PressCounter s0)) as [Hp|Hp].
      + rewrite loop_start_fires by assumption. cbn [Blink set_Blink]. tauto.
      + rewrite loop_start_guard_fails by auto. cbn [Blink set_actionStart].
        rewrite Hb. split; [discriminate|]. intros [?|?]; [discriminate|lia]. }
  split; [|split; [|split]].
  - unfold blink_started. rewrite (Hiff s Hf).
    split; [intros (Hb & [Hb'|Hp]) | intros (Hb & Hp)]; auto; congruence.
  - intros Hb Hp. rewrite loop_start_fires by assumption.
    cbn [Blink led timer1 actionStart PressCounter set_Blink].
    rewrite startTimer_frame.
    cbn [led timer1 actionStart PressCounter set_timer1 digitalWrite_led
         serial_out set_actionStart].
    split; [reflexivity|]. split; [reflexivity|]. split.
    { change (timer_armed (startTimer (PressCounter s)
                (digitalWrite_led false
                   (serial_out [SerialPrint "Medium press. Starting with: "%string;
                                SerialPrintlnInt (PressCounter s)]
                      (set_actionStart false s)))) = true).
      apply startTimer_armed. }
    rewrite startTimer_regs. cbn [TCNT1 TCCR1B OCR1A PressCounter serial_out
      digitalWrite_led set_actionStart].
    destruct (Z.eqb_spec (PressCounter s) 0) as [E|_]; [lia|]. repeat split.
  - intros Hb. rewrite loop_start_guard_fails by auto.
    cbn [Blink led timer1 set_actionStart]. auto.
  - intros m1 m2 Hs. unfold blink_started, loop.
    destruct (before_start_frame m1 m2 s Hs) as (E1 & E2 & E3 & _).
    rewrite Hf in E3. rewrite (Hiff _ E3), E1, E2.
    split; [intros (Hb & [Hb'|Hp]) | intros (Hb & Hp)]; auto; congruence.
Qed.

Lemma start_iff_guard_witness :
  blink_started (pending_start 2) (loop_start (pending_start 2)) /\
  ~ blink_started (pending_start 0) (loop_start (pending_start 0)) /\
  loop_start (set_actionStart true (loop_start (pending_start 2))) =
  loop_start (pending_start 2).
Proof.
  pose proof (start_iff_guard (pending_start 2) eq_refl) as H2.
  pose proof (start_iff_guard (pending_start 0) eq_refl) as H0.
  pose proof (start_iff_guard
                (set_actionStart true (loop_start (pending_start 2))) eq_refl)
    as Hb.
  cbn zeta in H2, H0, Hb. split; [|split].
  - apply (proj1 H2). split; [reflexivity|reflexivity].
  - intros Hs. apply (proj1 H0) in Hs. destruct Hs as [_ Hp]. discriminate Hp.
  - destruct (proj1 (proj2 (proj2 Hb)) eq_refl) as (E & _). rewrite E.
    vm_compute. reflexivity.
Defined.

(** C6: an edge less than 50ms after the last accepted one leaves the
    whole state as it was: no flag, no counter change, press start and
    last-accepted time untouched, nothing classified; two such edges in a
    row likewise.  An edge at 50ms or later is accepted and becomes the
    last accepted time.  Elapsed time is the 32-bit difference the code
    computes, which is the true difference while the millisecond clock
    has not wrapped in between. *)
Theorem debounce_discards (now : Z) (pin : bool) (s : State) :
  (sub_ulong now (lastISRTime s) < 50 -> buttonISR now pin s = s) /\
  (is_ulong now -> is_ulong (lastISRTime s) ->
     lastISRTime s <= now < lastISRTime s + 50 -> buttonISR now pin s = s) /\
  (forall now2 pin2,
     sub_ulong now (lastISRTime s) < 50 ->
     sub_ulong now2 (lastISRTime s) < 50 ->
     buttonISR now2 pin2 (buttonISR now pin s) = s) /\
  (50 <= sub_ulong now (lastISRTime s) ->
     accepted now s = true /\ lastISRTime (buttonISR now pin s) = now).
Proof.
  assert (Hd : forall n p, sub_ulong n (lastISRTime s) < 50 -> buttonISR n p s = s).
  { intros n p H. apply buttonISR_debounced. now apply accepted_false. }
  split; [apply Hd|]. split; [|split].
  - intros Hn Hl Hw. apply Hd. rewrite sub_ulong_elapsed by (auto; lia). lia.
  - intros now2 pin2 H1 H2. rewrite (Hd now pin H1). now apply Hd.
  - intros H. apply accepted_true in H. split; [assumption|].
    destruct pin.
    + rewrite buttonISR_press by assumption. reflexivity.
    + rewrite buttonISR_release by assumption.
      destruct (classify _); cbn [on_release]; try reflexivity.
      destruct (negb _); reflexivity.
Qed.

Lemma debounce_discards_witness :
  buttonISR 1049 false pressed_at_1000 = pressed_at_1000 /\
  buttonISR 1030 true (buttonISR 1049 false pressed_at_1000) = pressed_at_1000 /\
  lastISRTime (buttonISR 1050 false pressed_at_1000) = 1050.
Proof.
  pose proof (debounce_discards 1049 false pressed_at_1000) as (H1 & _ & H2 & _).
  pose proof (debounce_discards 1050 false pressed_at_1000) as (_ & _ & _ & H3).
  split; [apply H1; vm_compute; reflexivity|].
  split; [apply H2; vm_compute; reflexivity|].
  apply H3. vm_compute. discriminate.
Defined.

Lemma loop_stop_frame (s : State) :
  let s' := loop_stop s in
  feedbackLedOn s' = feedbackLedOn s /\ lastFlashStart s' = lastFlashStart s /\
  actionShort s' = actionShort s /\ actionStart s' = actionStart s /\
  actionStop s' = false.
Proof.
  destruct s as [pc pt li ash ast asp bl lf fb ld tm sr];
    destruct asp; handler; auto 10.
Qed.

Lemma loop_start_frame (s : State) :
  let s' := loop_start s in
  feedbackLedOn s' = feedbackLedOn s /\ lastFlashStart s' = lastFlashStart s /\
  actionShort s' = actionShort s /\ actionStop s' = actionStop s /\
  actionStart s' = false /\ (led s = false -> led s' = false).
Proof.
  destruct s as [pc pt li ash ast asp bl lf fb ld tm sr];
    destruct ast, bl; handler; auto 10.
Qed.

Lemma loop_short_fires (m : Z) (s : State) :
  actionShort s = true ->
  let s' := loop_short m s in
  led s' = true /\ feedbackLedOn s' = true /\ lastFlashStart s' = m /\
  actionShort s' = false.
Proof. unfold loop_short. intros ->. repeat split. Qed.

Lemma loop_flash_end_expired (m : Z) (s : State) :
  feedbackLedOn s = true -> 200 <= sub_ulong m (lastFlashStart s) ->
  loop_flash_end m s = set_feedbackLedOn false (digitalWrite_led false s).
Proof.
  unfold loop_flash_end. intros -> H. apply Z.leb_le in H. now rewrite H.
Qed.

Lemma loop_flash_end_running (m : Z) (s : State) :
  sub_ulong m (lastFlashStart s) < 200 -> loop_flash_end m s = s.
Proof.
  unfold loop_flash_end. intros H. apply Z.leb_gt in H.
  now rewrite H, andb_false_r.
Qed.

(** C7: consuming a short-press event turns the LED on, marks the flash
    active and records the time read; a later iteration that finds the
    flash active with at least 200ms elapsed since the recorded start
    turns the LED off and clears the mark (and does nothing to the flash
    before that); a short-press event consumed while a flash is active
    makes the new reading the start of the 200ms window, and with no
    stop or start pending the LED is on before, between and after the
    blocks of that iteration. *)
Theorem feedback_flash (m1 m2 : Z) (s : State) :
  (actionShort s = true ->
     let s1 := loop_short m1 s in
     led s1 = true /\ feedbackLedOn s1 = true /\ lastFlashStart s1 = m1 /\
     actionShort s1 = false) /\
  (feedbackLedOn s = true -> 200 <= sub_ulong m2 (lastFlashStart s) ->
     led (loop_flash_end m2 s) = false /\
     feedbackLedOn (loop_flash_end m2 s) = false) /\
  (sub_ulong m2 (lastFlashStart s) < 200 -> loop_flash_end m2 s = s) /\
  (actionShort s = false -> feedbackLedOn s = true ->
     200 <= sub_ulong m2 (lastFlashStart s) ->
     led (loop m1 m2 s) = false /\ feedbackLedOn (loop m1 m2 s) = false) /\
  (actionShort s = true -> feedbackLedOn s = true ->
     lastFlashStart (loop m1 m2 s) = m1 /\
     (200 <= sub_ulong m2 m1 ->
        led (loop m1 m2 s) = false /\ feedbackLedOn (loop m1 m2 s) = false) /\
     (sub_ulong m2 m1 < 200 ->
        feedbackLedOn (loop m1 m2 s) = true /\
        (led s = true -> actionStop s = false -> actionStart s = false ->
           led (loop_stop s) = true /\
           led (loop_short m1 (loop_stop s)) = true /\
           led (loop_flash_end m2 (loop_short m1 (loop_stop s))) = true /\
           led (loop m1 m2 s) = true))).
Proof.
  split; [apply loop_short_fires|].
  split; [intros Hf He; rewrite loop_flash_end_expired by assumption;
          split; reflexivity|].
  split; [apply loop_flash_end_running|].
  destruct (loop_stop_frame s) as (F0 & L0 & S0 & A0 & _).
  set (s0 := loop_stop s) in *.
  split.
  - intros Hs Hf He. unfold loop. fold s0.
    rewrite (loop_short_skip m1 s0) by congruence.
    rewrite (loop_flash_end_expired m2 s0) by congruence.
    destruct (loop_start_frame (set_feedbackLedOn false (digitalWrite_led false s0)))
      as (F3 & _ & _ & _ & _ & L3).
    split; [now apply L3 | now rewrite F3].
  - intros Hs Hf.
    destruct (loop_short_fires m1 s0) as (L1 & F1 & T1 & _); [congruence|].
    destruct (loop_short_frame m1 s0) as (_ & _ & _ & A1 & _).
    set (s1 := loop_short m1 s0) in *.
    destruct (loop_flash_end_frame m2 s1) as (_ & _ & _ & A2 & _ & _ & T2).
    destruct (loop_start_frame (loop_flash_end m2 s1)) as (F3 & T3 & _ & _ & _ & L3).
    unfold loop. fold s0. fold s1.
    split; [congruence|]. split.
    + intros He. rewrite F3.
      assert (E : loop_flash_end m2 s1 =
                  set_feedbackLedOn false (digitalWrite_led false s1))
        by (apply loop_flash_end_expired; [assumption | now rewrite T1]).
      rewrite E in *. split; [now apply L3 | reflexivity].
    + intros He. rewrite F3.
      assert (E : loop_flash_end m2 s1 = s1)
        by (apply loop_flash_end_running; now rewrite T1).
      rewrite E in *.
      split; [assumption|]. intros Hl Hp Ht.
      assert (E0 : s0 = s) by (subst s0; now apply loop_stop_skip).
      rewrite loop_start_skip by congruence.
      rewrite E0 in *. auto.
Qed.

Lemma feedback_flash_witness :
  lastFlashStart (loop 1100 1250 flashing_short_pending) = 1100 /\
  feedbackLedOn (loop 1100 1250 flashing_short_pending) = true /\
  led (loop 1100 1250 flashing_short_pending) = true /\
  led (loop 1100 1300
         (loop 1100 1250 flashing_short_pending)) = false.
Proof.
  pose proof (feedback_flash 1100 1250 flashing_short_pending)
    as (_ & _ & _ & _ & H).
  destruct (H eq_refl eq_refl) as (H1 & _ & H2).
  destruct H2 as (H2 & H3); [vm_compute; reflexivity|].
  pose proof (feedback_flash 1100 1300 (loop 1100 1250 flashing_short_pending))
    as (_ & _ & _ & H4 & _).
  split; [exact H1|]. split; [exact H2|]. split.
  - apply H3; reflexivity.
  - apply H4; [reflexivity | exact H2 | rewrite H1; vm_compute; discriminate].
Defined.

(** ** Flags *)

Lemma loop_flags_clear (m1 m2 : Z) (s : State) :
  actionShort (loop m1 m2 s) = false /\ actionStart (loop m1 m2 s) = false /\
  actionStop (loop m1 m2 s) = false.
Proof.
  unfold loop.
  destruct (loop_stop_frame s) as (_ & _ & _ & _ & P0).
  destruct (loop_short_frame m1 (loop_stop s)) as (_ & _ & _ & _ & P1 & S1).
  destruct (loop_flash_end_frame m2 (loop_short m1 (loop_stop s)))
    as (_ & _ & _ & _ & P2 & S2 & _).
  destruct (loop_start_frame (loop_flash_end m2 (loop_short m1 (loop_stop s))))
    as (_ & _ & S3 & P3 & A3 & _).
  repeat split; congruence.
Qed.

(** The button handler changes a flag only by setting it, and never
    touches Blink or the timer. *)
Lemma buttonISR_flags (now : Z) (pin : bool) (s : State) :
  let s' := buttonISR now pin s in
  (actionShort s = true -> actionShort s' = true) /\
  (actionStart s = true -> actionStart s' = true) /\
  (actionStop s = true -> actionStop s' = true) /\
  Blink s' = Blink s /\ timer1 s' = timer1 s /\ led s' = led s.
Proof.
  destruct s as [pc pt li ash ast asp bl lf fb ld tm sr].
  unfold buttonISR. handler; auto 10.
Qed.

Lemma timer1_tick_frame (s : State) :
  let s' := timer1_tick s in
  actionShort s' = actionShort s /\ actionStart s' = actionStart s /\
  actionStop s' = actionStop s /\ Blink s' = Blink s /\
  PressCounter s' = PressCounter s /\
  TCCR1B (timer1 s') = TCCR1B (timer1 s) /\
  TIMSK1 (timer1 s') = TIMSK1 (timer1 s).
Proof.
  destruct s as [pc pt li ash ast asp bl lf fb ld [a b c d e] sr].
  unfold timer1_tick. handler; auto 10.
Qed.

(** C9: at the end of a loop iteration the three event flags are false,
    so a flag that was acted upon is not left set; each block clears its
    own flag; the button handler only ever turns a flag on, and the timer
    handler leaves the flags alone. *)
Theorem flags_consumed_never_cleared_by_producer :
  (forall m1 m2 s,
     actionShort (loop m1 m2 s) = false /\
     actionStart (loop m1 m2 s) = false /\
     actionStop (loop m1 m2 s) = false) /\
  (forall m s,
     actionStop (loop_stop s) = false /\
     actionShort (loop_short m s) = false /\
     actionStart (loop_start s) = false) /\
  (forall now pin s,
     (actionShort s = true -> actionShort (buttonISR now pin s) = true) /\
     (actionStart s = true -> actionStart (buttonISR now pin s) = true) /\
     (actionStop s = true -> actionStop (buttonISR now pin s) = true)) /\
  (forall s,
     actionShort (TIMER1_COMPA_vect s) = actionShort s /\
     actionStart (TIMER1_COMPA_vect s) = actionStart s /\
     actionStop (TIMER1_COMPA_vect s) = actionStop s).
Proof.
  split; [apply loop_flags_clear|]. split; [|split].
  - intros m s. split; [apply loop_stop_frame|].
    split; [apply loop_short_frame | apply loop_start_frame].
  - intros now pin s. pose proof (buttonISR_flags now pin s) as H.
    cbn zeta in H. tauto.
  - intros s. repeat split.
Qed.

Lemma flags_consumed_never_cleared_by_producer_witness :
  (actionShort (loop 10 20 all_pending) = false /\
   actionStart (loop 10 20 all_pending) = false /\
   actionStop (loop 10 20 all_pending) = false) /\
  actionStop (buttonISR 3000 false all_pending) = true /\
  actionShort (buttonISR 3000 false all_pending) = true /\
  actionStart (buttonISR 3000 false all_pending) = true.
Proof.
  destruct flags_consumed_never_cleared_by_producer as (H1 & _ & H2 & _).
  split; [apply H1|].
  destruct (H2 3000 false all_pending) as (Ha & Hb & Hc).
  split; [apply Hc; reflexivity|].
  split; [apply Ha; reflexivity | apply Hb; reflexivity].
Defined.

(** ** Executions without a medium press *)

Lemma timer_armed_regs (s s' : State) :
  TCCR1B (timer1 s') = TCCR1B (timer1 s) ->
  TIMSK1 (timer1 s') = TIMSK1 (timer1 s) ->
  timer_armed s' = timer_armed s.
Proof.
  unfold timer_armed, timer1_clocked, timer1_irq. now intros -> ->.
Qed.

Lemma loop_not_starting (m1 m2 : Z) (s : State) :
  not_starting s -> not_starting (loop m1 m2 s).
Proof.
  intros (Ha & Hb & Ht). unfold loop.
  destruct (loop_stop_frame s) as (_ & _ & _ & A0 & _).
  assert (H0 : Blink (loop_stop s) = false /\ timer_armed (loop_stop s) = false).
  { destruct (actionStop s) eqn:Hs.
    - unfold loop_stop. rewrite Hs. split; [reflexivity|].
      apply disarmed_not_armed, stopTimer_disarmed.
    - rewrite loop_stop_skip by assumption. auto. }
  destruct H0 as (B0 & T0).
  destruct (loop_short_frame m1 (loop_stop s)) as (_ & B1 & T1 & A1 & _).
  destruct (loop_flash_end_frame m2 (loop_short m1 (loop_stop s)))
    as (_ & B2 & T2 & A2 & _).
  rewrite loop_start_skip by congruence.
  split; [congruence|]. split; [congruence|].
  rewrite <- T0. apply timer_armed_regs; congruence.
Qed.

Lemma step_not_starting (e : Event) (s : State) :
  not_starting s -> is_medium_release e s = false -> not_starting (step e s).
Proof.
  intros (Ha & Hb & Ht) Hm. destruct e as [now pin| |m1 m2]; cbn [step].
  - pose proof (buttonISR_flags now pin s) as (_ & _ & _ & B & T & _).
    split; [|split; [congruence|]].
    + destruct (accepted now s) eqn:Hacc.
      * destruct pin.
        -- rewrite buttonISR_press by assumption. exact Ha.
        -- rewrite buttonISR_release by assumption.
           cbn [is_medium_release] in Hm. rewrite Hacc in Hm.
           destruct (classify _); cbn [on_release andb] in *;
             try discriminate; try exact Ha.
           destruct (negb _); exact Ha.
      * rewrite buttonISR_debounced by assumption. exact Ha.
    + rewrite <- Ht. apply timer_armed_regs; now rewrite T.
  - destruct (timer1_tick_frame s) as (_ & A & _ & B & _ & R1 & R2).
    split; [congruence|]. split; [congruence|].
    rewrite <- Ht. now apply timer_armed_regs.
  - now apply loop_not_starting.
Qed.

Lemma run_not_starting (es : list Event) (s : State) :
  not_starting s -> no_medium_release es s = true -> not_starting (run es s).
Proof.
  revert s. induction es as [|e es IH]; intros s Hs Hn; cbn [run].
  - exact Hs.
  - cbn [no_medium_release] in Hn. apply andb_true_iff in Hn.
    destruct Hn as (Hm & Hn). apply negb_true_iff in Hm.
    apply IH; [now apply step_not_starting | exact Hn].
Qed.

(** C10: a medium-press event consumed while Blink is on or PressCounter
    is not positive only has its flag cleared; nothing else in the state
    changes (nothing is printed either), and a loop iteration without a
    pending stop leaves Blink, the timer and the counter as they were.
    The event is gone: from the state it leaves, with Blink off and the
    timer unarmed, no execution of edges, timer ticks and loop
    iterations starts blinking unless it contains a new medium release,
    however large PressCounter grows in between. *)
Theorem failed_start_is_dropped (s : State) :
  actionStart s = true ->
  Blink s = true \/ PressCounter s <= 0 ->
  loop_start s = set_actionStart false s /\
  (forall m1 m2, actionStop s = false ->
     actionStart (loop m1 m2 s) = false /\ Blink (loop m1 m2 s) = Blink s /\
     timer1 (loop m1 m2 s) = timer1 s /\
     PressCounter (loop m1 m2 s) = PressCounter s) /\
  (Blink s = false -> timer_armed s = false ->
     forall es, no_medium_release es (loop_start s) = true ->
       Blink (run es (loop_start s)) = false /\
       timer_armed (run es (loop_start s)) = false /\
       actionStart (run es (loop_start s)) = false).
Proof.
  intros Hf Hg.
  assert (E : loop_start s = set_actionStart false s)
    by now apply loop_start_discards.
  split; [exact E|]. split.
  - intros m1 m2 Hs. unfold loop.
    destruct (before_start_frame m1 m2 s Hs) as (E1 & E2 & E3 & E4 & _).
    rewrite loop_start_guard_fails by (rewrite E1, E2; exact Hg).
    cbn [actionStart Blink timer1 PressCounter set_actionStart]. auto.
  - intros Hb Ht es Hn.
    assert (Hns : not_starting (loop_start s)).
    { rewrite E. repeat split; assumption. }
    destruct (run_not_starting es _ Hns Hn) as (A & B & T). auto.
Qed.

Lemma failed_start_is_dropped_witness :
  loop_start (pending_start 0) = set_actionStart false (pending_start 0) /\
  PressCounter (run after_empty_start (loop_start (pending_start 0))) = 1 /\
  Blink (run after_empty_start (loop_start (pending_start 0))) = false /\
  timer_armed (run after_empty_start (loop_start (pending_start 0))) = false.
Proof.
  assert (Hf : actionStart (pending_start 0) = true) by reflexivity.
  assert (Hg : Blink (pending_start 0) = true \/ PressCounter (pending_start 0) <= 0)
    by (right; vm_compute; discriminate).
  assert (Hb : Blink (pending_start 0) = false) by reflexivity.
  assert (Ht : timer_armed (pending_start 0) = false) by reflexivity.
  assert (Hn : no_medium_release after_empty_start (loop_start (pending_start 0))
               = true) by (vm_compute; reflexivity).
  destruct (failed_start_is_dropped (pending_start 0) Hf Hg) as (H1 & _ & H2).
  destruct (H2 Hb Ht after_empty_start Hn) as (H3 & H4 & _).
  split; [exact H1|]. split; [vm_compute; reflexivity|].
  split; [exact H3 | exact H4].
Defined.

(** ** Totality *)

Ltac ranges :=
  unfold wf, wf_timer, is_int, is_u8, is_u16, is_ulong, INT_MIN, INT_MAX,
    ULONG_MOD in *.

Lemma wf_buttonISR (now : Z) (pin : bool) (s : State) :
  is_ulong now -> wf s -> wf (buttonISR now pin s).
Proof.
  intros Hn Hw. destruct (accepted now s) eqn:Ha.
  - destruct pin.
    + rewrite buttonISR_press by assumption. ranges.
      cbn [PressCounter pressTime lastISRTime lastFlashStart timer1
           set_pressTime set_lastISRTime]. tauto.
    + rewrite buttonISR_release by assumption.
      pose proof (wrap_int_range (PressCounter s + 1)) as Hr.
      destruct (classify _); cbn [on_release]; try destruct (negb _); ranges;
        cbn [PressCounter pressTime lastISRTime lastFlashStart timer1
             set_lastISRTime set_actionShort set_actionStart set_actionStop
             set_PressCounter]; tauto.
  - now rewrite buttonISR_debounced.
Qed.

Lemma wf_timer1_tick (s : State) : wf s -> wf (timer1_tick s).
Proof.
  intros Hw. pose proof (wrap_u16_range (TCNT1 (timer1 s) + 1)) as Hr.
  unfold timer1_tick, TIMER1_COMPA_vect.
  destruct (timer1_clocked _); [|assumption].
  destruct (_ =? _); [destruct (timer1_irq _)|]; ranges;
    cbn [PressCounter pressTime lastISRTime lastFlashStart timer1
         set_timer1 digitalWrite_led TCCR1A TCCR1B TCNT1 OCR1A TIMSK1];
    intuition lia.
Qed.

Lemma wf_loop_stop (s : State) : wf s -> wf (loop_stop s).
Proof.
  intros Hw. unfold loop_stop. destruct (actionStop s); [|assumption].
  ranges. cbn. intuition lia.
Qed.

Lemma wf_loop_short (m : Z) (s : State) :
  is_ulong m -> wf s -> wf (loop_short m s).
Proof.
  intros Hm Hw. unfold loop_short. destruct (actionShort s); [|assumption].
  ranges. cbn. intuition lia.
Qed.

Lemma wf_loop_flash_end (m : Z) (s : State) : wf s -> wf (loop_flash_end m s).
Proof.
  intros Hw. unfold loop_flash_end. destruct (_ && _); [|assumption].
  ranges. cbn. intuition lia.
Qed.

Lemma wf_startTimer (counts : Z) (s : State) : wf s -> wf (startTimer counts s).
Proof.
  intros Hw. rewrite startTimer_frame, startTimer_regs.
  pose proof (wrap_u8_range (Z.lor (TIMSK1 (timer1 s)) 2)) as H8.
  pose proof (Z.mod_pos_bound
                (7812 * (if counts =? 0 then 1 else counts) - 1) 65536) as H16.
  ranges.
  cbn [PressCounter pressTime lastISRTime lastFlashStart timer1 set_timer1
       TCCR1A TCCR1B TCNT1 OCR1A TIMSK1].
  change CTC_1024 with 13. intuition lia.
Qed.

Lemma wf_loop_start (s : State) : wf s -> wf (loop_start s).
Proof.
  intros Hw. unfold loop_start. destruct (actionStart s); [|assumption].
  destruct (_ && _).
  - assert (Hw' : wf (digitalWrite_led false
                       (serial_out [SerialPrint "Medium press. Starting with: "%string;
                                    SerialPrintlnInt (PressCounter (set_actionStart false s))]
                          (set_actionStart false s)))) by exact Hw.
    apply (wf_startTimer (PressCounter (set_actionStart false s))) in Hw'.
    exact Hw'.
  - exact Hw.
Qed.

Lemma wf_loop (m1 m2 : Z) (s : State) :
  is_ulong m1 -> is_ulong m2 -> wf s -> wf (loop m1 m2 s).
Proof.
  intros H1 H2 Hw. unfold loop.
  now apply wf_loop_start, wf_loop_flash_end, wf_loop_short, wf_loop_stop.
Qed.

Lemma wf_boot : wf boot.
Proof. ranges. cbn. intuition lia. Qed.

Lemma buttonISR_outcome (now : Z) (pin : bool) (s : State) :
  buttonISR now pin s = isr_effect (isr_outcome now pin s) now s.
Proof.
  unfold isr_outcome. destruct (accepted now s) eqn:Ha.
  - destruct pin.
    + now apply buttonISR_press.
    + rewrite buttonISR_release by assumption.
      destruct (classify _); cbn [on_release Blink set_lastISRTime];
        try reflexivity.
      destruct (Blink s); reflexivity.
  - now apply buttonISR_debounced.
Qed.

(** C8: every event has an outcome in every state.  From a state whose
    fields are in the range of their C types, an edge, a timer tick or a
    loop iteration (with [unsigned long] clock readings) ends in such a
    state again, so every execution from boot does; [buttonISR] does one
    of six listed things for every time, pin level, duration, counter
    and flag configuration; and the cases that match nothing are no-ops:
    a debounced edge, a tick of the stopped timer, and a loop iteration
    with no flag set and no flash active leave the state as it is, as
    does each block of the loop whose flag is clear. *)
Theorem transitions_total (e : Event) (s : State) :
  (wf s -> wf_event e -> wf (step e s)) /\
  (forall es, Forall wf_event es -> wf (run es boot)) /\
  (forall now pin,
     buttonISR now pin s = isr_effect (isr_outcome now pin s) now s) /\
  (forall now pin, accepted now s = false -> step (Edge now pin) s = s) /\
  (timer_disarmed s -> step TimerTick s = s) /\
  (forall m1 m2, quiescent s -> step (LoopIter m1 m2) s = s) /\
  (forall m,
     (actionStop s = false -> loop_stop s = s) /\
     (actionShort s = false -> loop_short m s = s) /\
     (feedbackLedOn s = false -> loop_flash_end m s = s) /\
     (actionStart s = false -> loop_start s = s)).
Proof.
  assert (Hstep : forall e0 s0, wf s0 -> wf_event e0 -> wf (step e0 s0)).
  { intros [now pin| |m1 m2] s0 Hw He; cbn [step wf_event] in *.
    - now apply wf_buttonISR.
    - now apply wf_timer1_tick.
    - destruct He. now apply wf_loop. }
  split; [apply Hstep|]. split; [|split; [|split; [|split; [|split]]]].
  - intros es Hes. generalize boot wf_boot.
    induction Hes as [|e0 es0 He0 _ IH]; intros s0 Hw; cbn [run]; auto.
  - intros now pin. apply buttonISR_outcome.
  - intros now pin Ha. now apply buttonISR_debounced.
  - apply timer1_tick_stopped.
  - intros m1 m2 (H1 & H2 & H3 & H4). cbn [step]. unfold loop.
    now rewrite (loop_stop_skip s H1), (loop_short_skip m1 s H2),
      (loop_flash_end_skip m2 s H4), (loop_start_skip s H3).
  - intros m. split; [apply loop_stop_skip|].
    split; [apply loop_short_skip|].
    split; [apply loop_flash_end_skip | apply loop_start_skip].
Qed.

Lemma transitions_total_witness :
  wf (step (Edge 1200 false) counter_at_max) /\
  wf (step (LoopIter 7 9) (pending_start 32767)) /\
  step (Edge 1010 false) counter_at_max = counter_at_max /\
  step (LoopIter 7 9) boot = boot /\
  step TimerTick boot = boot.
Proof.
  assert (W1 : wf counter_at_max)
    by (repeat split; vm_compute; first [reflexivity | discriminate]).
  assert (W2 : wf (pending_start 32767))
    by (repeat split; vm_compute; first [reflexivity | discriminate]).
  assert (U : forall x, 0 <= x < 5000 -> is_ulong x) by (ranges; lia).
  split; [apply (proj1 (transitions_total (Edge 1200 false) counter_at_max) W1);
          apply U; lia|].
  split; [apply (proj1 (transitions_total (LoopIter 7 9) (pending_start 32767)) W2);
          split; apply U; lia|].
  destruct (transitions_total TimerTick counter_at_max) as (_ & _ & _ & H & _).
  split; [apply H; vm_compute; reflexivity|].
  destruct (transitions_total TimerTick boot) as (_ & _ & _ & _ & Ht & Hl & _).
  split; [apply Hl; repeat split | apply Ht; split; reflexivity].
Defined.

(** * Further properties of the program *)

(** ** The invariant of reachable states *)

Lemma consistent_boot : consistent boot.
Proof.
  unfold consistent. cbn. repeat split; try discriminate; try reflexivity.
Qed.

Lemma consistent_buttonISR (now : Z) (pin : bool) (s : State) :
  consistent s -> consistent (buttonISR now pin s).
Proof.
  intros Hc. rewrite buttonISR_outcome. unfold isr_outcome.
  destruct (accepted now s); [|exact Hc].
  destruct pin; [exact Hc|].
  destruct (classify _); try exact Hc.
  destruct (Blink s) eqn:Hb; [exact Hc|].
  destruct Hc as (H1 & H2 & H3). unfold consistent.
  cbn [isr_effect Blink timer1 PressCounter actionShort feedbackLedOn led
       set_actionShort set_PressCounter set_lastISRTime].
  split; [congruence|]. split; assumption.
Qed.

Lemma consistent_timer1_tick (s : State) :
  consistent s -> consistent (timer1_tick s).
Proof.
  intros Hcs. unfold timer1_tick, timer1_clocked.
  destruct (Z.eqb_spec (TCCR1B (timer1 s)) CTC_1024) as [Hc|Hc];
    [|exact Hcs].
  destruct Hcs as (H1 & H2 & H3). destruct (Blink s) eqn:Hb.
  - destruct (H1 eq_refl) as (_ & Hi & Hp & Ho & Hs).
    assert (Hr : OCR1A (timer1 s) < 65536)
      by (rewrite Ho; apply Z.mod_pos_bound; lia).
    unfold timer1_irq. rewrite Hi. change (Z.testbit 2 OCIE1A) with true.
    destruct (Z.eqb_spec (TCNT1 (timer1 s)) (OCR1A (timer1 s))) as [E|E];
      unfold consistent, TIMER1_COMPA_vect;
      cbn [Blink timer1 PressCounter actionShort feedbackLedOn led
           set_timer1 digitalWrite_led TCCR1B TIMSK1 OCR1A TCNT1];
      (split; [intros _; auto 10|]); (split; [congruence|]).
    + lia.
    + unfold wrap_u16. rewrite Z.mod_small by lia. lia.
  - destruct (H2 eq_refl) as (Hz & _). rewrite Hz in Hc. discriminate Hc.
Qed.

Lemma consistent_loop_stop (s : State) :
  consistent s -> consistent (loop_stop s).
Proof.
  intros Hc. unfold loop_stop.
  destruct (actionStop s); [|exact Hc]. destruct Hc as (H1 & H2 & H3).
  unfold consistent. cbn. split; [discriminate|]. split; [auto|exact H3].
Qed.

Lemma consistent_loop_short (m : Z) (s : State) :
  consistent s -> consistent (loop_short m s).
Proof.
  intros Hc. unfold loop_short.
  destruct (actionShort s) eqn:Hs; [|exact Hc].
  destruct Hc as (H1 & H2 & H3). destruct (Blink s) eqn:Hb.
  - destruct (H1 eq_refl) as (_ & _ & _ & _ & Hf). congruence.
  - destruct (H2 eq_refl) as (Hz & Hi & _). unfold consistent.
    cbn [Blink timer1 PressCounter actionShort feedbackLedOn led
         set_actionShort serial_out digitalWrite_led set_feedbackLedOn
         set_lastFlashStart].
    rewrite Hb. split; [discriminate|]. split; [|exact H3].
    intros _. split; [exact Hz|]. split; [exact Hi|]. discriminate.
Qed.

Lemma consistent_loop_flash_end (m : Z) (s : State) :
  consistent s -> consistent (loop_flash_end m s).
Proof.
  intros Hc. unfold loop_flash_end.
  destruct (_ && _); [|exact Hc]. destruct Hc as (H1 & H2 & H3).
  unfold consistent. cbn. split; [exact H1|]. split; [|exact H3].
  intros Hb. destruct (H2 Hb) as (Hz & Hi & _). auto.
Qed.

Lemma consistent_loop_start (s : State) :
  actionShort s = false -> consistent s -> consistent (loop_start s).
Proof.
  intros Hs Hc.
  destruct (actionStart s) eqn:Hf;
    [|rewrite loop_start_skip by assumption; exact Hc].
  destruct Hc as (H1 & H2 & H3). destruct (Blink s) eqn:Hb.
  - rewrite loop_start_guard_fails by auto. unfold consistent.
    cbn [Blink timer1 PressCounter actionShort feedbackLedOn led
         set_actionStart]. rewrite Hb. auto.
  - destruct (Z.ltb_spec 0 (PressCounter s)) as [Hp|Hp].
    + rewrite loop_start_fires by assumption.
      destruct (H2 eq_refl) as (_ & Hi & _). unfold consistent.
      cbn [Blink timer1 PressCounter actionShort feedbackLedOn led set_Blink].
      rewrite startTimer_frame.
      cbn [timer1 PressCounter actionShort set_timer1 digitalWrite_led
           serial_out set_actionStart].
      rewrite startTimer_regs.
      cbn [timer1 TCCR1B TIMSK1 OCR1A TCNT1 digitalWrite_led serial_out
           set_actionStart].
      rewrite Hi. destruct (Z.eqb_spec (PressCounter s) 0) as [E|_]; [lia|].
      split; [intros _; repeat split; auto|]. split; [discriminate|].
      pose proof (Z.mod_pos_bound (7812 * PressCounter s - 1) 65536). lia.
    + rewrite loop_start_guard_fails by auto. unfold consistent.
      cbn [Blink timer1 PressCounter actionShort feedbackLedOn led
           set_actionStart]. rewrite Hb. auto.
Qed.

Lemma consistent_loop (m1 m2 : Z) (s : State) :
  consistent s -> consistent (loop m1 m2 s).
Proof.
  intros Hc. unfold loop. apply consistent_loop_start.
  - destruct (loop_flash_end_frame m2 (loop_short m1 (loop_stop s)))
      as (_ & _ & _ & _ & _ & E & _).
    rewrite E. apply loop_short_frame.
  - now apply consistent_loop_flash_end, consistent_loop_short,
      consistent_loop_stop.
Qed.

Lemma consistent_step (e : Event) (s : State) :
  consistent s -> consistent (step e s).
Proof.
  destruct e as [now pin| |m1 m2]; cbn [step].
  - apply consistent_buttonISR.
  - apply consistent_timer1_tick.
  - apply consistent_loop.
Qed.

Lemma consistent_run (es : list Event) (s : State) :
  consistent s -> consistent (run es s).
Proof.
  revert s. induction es as [|e es IH]; intros s Hc; cbn [run]; auto.
  apply IH. now apply consistent_step.
Qed.

(** ** What holds in every state reached from boot *)


(** X2: whenever Blink is on in a reachable state, PressCounter is
    positive and the compare register still holds the value computed
    from it, 7812 * PressCounter - 1 reduced to 16 bits: the counter
    cannot change while the LED blinks. *)
Theorem blink_rate_tracks_counter (es : list Event) :
  Blink (run es boot) = true ->
  0 < PressCounter (run es boot) /\
  OCR1A (timer1 (run es boot)) =
    (7812 * PressCounter (run es boot) - 1) mod 65536 /\
  TCCR1B (timer1 (run es boot)) = CTC_1024.
Proof.
  intros Hb.
  destruct (consistent_run es boot consistent_boot) as (H1 & _ & _).
  destruct (H1 Hb) as (Hc & _ & Hp & Ho & _). auto.
Qed.

Lemma blink_rate_tracks_counter_witness :
  PressCounter (run short_short_medium boot) = 2 /\
  OCR1A (timer1 (run short_short_medium boot)) = 15623.
Proof.
  assert (Hb : Blink (run short_short_medium boot) = true)
    by (vm_compute; reflexivity).
  destruct (blink_rate_tracks_counter short_short_medium Hb) as (_ & Ho & _).
  split; [vm_compute; reflexivity|]. rewrite Ho. vm_compute. reflexivity.
Defined.

(** X3: in a reachable state with Blink off and no feedback flash
    active the LED is off. *)
Theorem led_dark_when_inactive (es : list Event) :
  Blink (run es boot) = false -> feedbackLedOn (run es boot) = false ->
  led (run es boot) = false.
Proof.
  intros Hb Hf.
  destruct (consistent_run es boot consistent_boot) as (_ & H2 & _).
  destruct (H2 Hb) as (_ & _ & Hl). auto.
Qed.

Lemma led_dark_when_inactive_witness :
  led (run (short_short_medium ++ [Edge 9000 true; Edge 14000 false;
                                   TimerTick; LoopIter 14001 14001]) boot)
  = false.
Proof.
  apply led_dark_when_inactive; vm_compute; reflexivity.
Defined.

(** X4: while Blink is on no short-press event is pending, so no
    feedback flash starts during blinking. *)
Theorem no_short_event_while_blinking (es : list Event) :
  Blink (run es boot) = true ->
  actionShort (run es boot) = false /\
  forall m, loop_short m (run es boot) = run es boot.
Proof.
  intros Hb.
  destruct (consistent_run es boot consistent_boot) as (H1 & _ & _).
  destruct (H1 Hb) as (_ & _ & _ & _ & Hs).
  split; [exact Hs|]. intros m. now apply loop_short_skip.
Qed.

Lemma no_short_event_while_blinking_witness :
  actionShort (run (short_short_medium ++ [Edge 5000 true; Edge 5200 false])
                 boot) = false.
Proof.
  apply no_short_event_while_blinking. vm_compute. reflexivity.
Defined.


(** ** The counter and the press edges *)

Lemma PressCounter_step (e : Event) (s : State) :
  PressCounter (step e s) = PressCounter s \/
  PressCounter (step e s) = 0 \/
  (exists now, e = Edge now false) /\
  PressCounter (step e s) = wrap_int (PressCounter s + 1).
Proof.
  destruct e as [now pin| |m1 m2]; cbn [step].
  - rewrite buttonISR_outcome. unfold isr_outcome.
    destruct (accepted now s); [|now left].
    destruct pin; [now left|].
    destruct (classify _); try (now left).
    destruct (Blink s); [now left|].
    right. right. split; [now exists now | reflexivity].
  - left. apply timer1_tick_frame.
  - unfold loop.
    destruct (loop_short_frame m1 (loop_stop s)) as (P1 & _).
    destruct (loop_flash_end_frame m2 (loop_short m1 (loop_stop s))) as (P2 & _).
    assert (P3 : forall s0, PressCounter (loop_start s0) = PressCounter s0).
    { intros s0. unfold loop_start. destruct (actionStart s0); [|reflexivity].
      destruct (_ && _); reflexivity. }
    rewrite P3, P2, P1. unfold loop_stop.
    destruct (actionStop s); [right; left; reflexivity | left; reflexivity].
Qed.

Lemma PressCounter_run (es : list Event) (s : State) (c : Z) :
  0 <= PressCounter s <= c -> c + low_edges es <= INT_MAX ->
  0 <= PressCounter (run es s) <= c + low_edges es.
Proof.
  revert s c. induction es as [|e es IH]; intros s c Hs Hc.
  - cbn [run low_edges] in *. lia.
  - cbn [run].
    assert (Hl : 0 <= low_edges es).
    { clear. induction es as [|[n [|]| |a b] es IH]; cbn [low_edges]; lia. }
    destruct (PressCounter_step e s) as [E|[E|((now & ->) & E)]].
    + assert (Hle : low_edges es <= low_edges (e :: es))
        by (destruct e as [n [|]| |a b]; cbn [low_edges]; lia).
      pose proof (IH (step e s) c ltac:(lia) ltac:(lia)). lia.
    + assert (Hle : low_edges es <= low_edges (e :: es))
        by (destruct e as [n [|]| |a b]; cbn [low_edges]; lia).
      pose proof (IH (step e s) c ltac:(lia) ltac:(lia)). lia.
    + cbn [low_edges] in *.
      rewrite wrap_int_small in E
        by (unfold is_int, INT_MIN, INT_MAX in *; lia).
      pose proof (IH (step (Edge now false) s) (c + 1) ltac:(lia) ltac:(lia)).
      lia.
Qed.

(** X6: from boot, PressCounter is never negative and never exceeds the
    number of edges seen with the pin LOW, for executions with at most
    32767 such edges (the range of [int]). *)
Theorem counter_bounded_by_releases (es : list Event) :
  low_edges es <= INT_MAX ->
  0 <= PressCounter (run es boot) <= low_edges es.
Proof.
  intros H. apply (PressCounter_run es boot 0); cbn [PressCounter boot]; lia.
Qed.

Lemma counter_bounded_by_releases_witness :
  0 <= PressCounter (run short_short_medium boot) <= 3.
Proof.
  apply (counter_bounded_by_releases short_short_medium).
  vm_compute. discriminate.
Defined.

(** X7: the interrupt handlers never write to the serial channel, and
    whatever an execution does, the channel only grows: what was printed
    stays a prefix. *)
Theorem serial_append_only (es : list Event) (s : State) :
  (forall now pin, serial (buttonISR now pin s) = serial s) /\
  serial (TIMER1_COMPA_vect s) = serial s /\
  serial (timer1_tick s) = serial s /\
  exists out, serial (run es s) = serial s ++ out.
Proof.
  assert (Hisr : forall s0 now pin, serial (buttonISR now pin s0) = serial s0).
  { intros s0 now pin. rewrite buttonISR_outcome.
    destruct (isr_outcome now pin s0); reflexivity. }
  assert (Htick : forall s0, serial (timer1_tick s0) = serial s0).
  { intros s0. unfold timer1_tick. destruct (timer1_clocked _); [|reflexivity].
    destruct (_ =? _); [destruct (timer1_irq _)|]; reflexivity. }
  assert (Hblock : forall s0 m,
            (exists o, serial (loop_stop s0) = serial s0 ++ o) /\
            (exists o, serial (loop_short m s0) = serial s0 ++ o) /\
            (exists o, serial (loop_flash_end m s0) = serial s0 ++ o) /\
            (exists o, serial (loop_start s0) = serial s0 ++ o)).
  { intros s0 m. unfold loop_stop, loop_short, loop_flash_end, loop_start.
    repeat split.
    - destruct (actionStop s0); [eexists; reflexivity|].
      exists []. now rewrite app_nil_r.
    - destruct (actionShort s0); [eexists; reflexivity|].
      exists []. now rewrite app_nil_r.
    - exists []. rewrite app_nil_r. destruct (_ && _); reflexivity.
    - destruct (actionStart s0); [|exists []; now rewrite app_nil_r].
      destruct (_ && _); [eexists; reflexivity|].
      exists []. now rewrite app_nil_r. }
  split; [apply Hisr|]. split; [reflexivity|]. split; [apply Htick|].
  revert s. induction es as [|e es IH]; intros s; cbn [run].
  - exists []. now rewrite app_nil_r.
  - destruct (IH (step e s)) as (o & Ho). rewrite Ho.
    destruct e as [now pin| |m1 m2]; cbn [step].
    + rewrite Hisr. now exists o.
    + rewrite Htick. now exists o.
    + unfold loop.
      destruct (Hblock s m1) as ((o1 & E1) & _).
      destruct (Hblock (loop_stop s) m1) as (_ & (o2 & E2) & _).
      destruct (Hblock (loop_short m1 (loop_stop s)) m2) as (_ & _ & (o3 & E3) & _).
      destruct (Hblock (loop_flash_end m2 (loop_short m1 (loop_stop s))) m2)
        as (_ & _ & _ & (o4 & E4)).
      rewrite E4, E3, E2, E1. exists (o1 ++ o2 ++ o3 ++ o4 ++ o).
      now rewrite <- !app_assoc.
Qed.

(** ** A press from edge to edge *)

Lemma sub_ulong_after (t0 d : Z) :
  0 <= d < ULONG_MOD -> sub_ulong (wrap_ulong (t0 + d)) t0 = d.
Proof.
  intros Hd. unfold sub_ulong, wrap_ulong.
  rewrite Zminus_mod_idemp_l. replace (t0 + d - t0) with d by lia.
  apply Z.mod_small. exact Hd.
Qed.

(** X8: a press accepted at clock reading t0 and released d ms later
    (d below 2^32, the reading taken modulo 2^32, so the millisecond
    clock may wrap during the press): if d < 50 the release edge is
    debounced away and the tap leaves no trace beyond the press start;
    otherwise the handler acts on the class of exactly d. *)
Theorem press_then_release (t0 d : Z) (s : State) :
  accepted t0 s = true -> 0 <= d < ULONG_MOD ->
  let s1 := buttonISR t0 true s in
  let t1 := wrap_ulong (t0 + d) in
  (d < 50 -> buttonISR t1 false s1 = s1) /\
  (50 <= d ->
     buttonISR t1 false s1 =
     on_release (classify d) (set_lastISRTime t1 s1)).
Proof.
  intros Ha Hd. cbn zeta. rewrite (buttonISR_press t0 s Ha).
  set (s1 := set_pressTime t0 (set_lastISRTime t0 s)).
  assert (E1 : sub_ulong (wrap_ulong (t0 + d)) (lastISRTime s1) = d)
    by (apply sub_ulong_after; exact Hd).
  assert (E2 : sub_ulong (wrap_ulong (t0 + d)) (pressTime s1) = d)
    by (apply sub_ulong_after; exact Hd).
  split; intros H.
  - apply buttonISR_debounced. apply accepted_false. rewrite E1. exact H.
  - rewrite buttonISR_release by (apply accepted_true; rewrite E1; exact H).
    rewrite E2. reflexivity.
Qed.

Lemma press_then_release_witness :
  buttonISR 30 false (buttonISR 4294967290 true boot) =
  buttonISR 4294967290 true boot /\
  PressCounter (buttonISR 294 false (buttonISR 4294967290 true boot)) = 1.
Proof.
  assert (Ha : accepted 4294967290 boot = true) by (vm_compute; reflexivity).
  split.
  - assert (Hd : 0 <= 36 < ULONG_MOD) by (unfold ULONG_MOD; lia).
    exact (proj1 (press_then_release 4294967290 36 boot Ha Hd) ltac:(lia)).
  - assert (Hd : 0 <= 300 < ULONG_MOD) by (unfold ULONG_MOD; lia).
    pose proof (proj2 (press_then_release 4294967290 300 boot Ha Hd) ltac:(lia))
      as H.
    change (wrap_ulong (4294967290 + 300)) with 294 in H.
    rewrite H. reflexivity.
Defined.

Lemma buttonISR_short_counted (now : Z) (s : State) :
  accepted now s = true -> sub_ulong now (pressTime s) < 1500 ->
  Blink s = false ->
  buttonISR now false s =
  set_actionShort true
    (set_PressCounter (wrap_int (PressCounter s + 1)) (set_lastISRTime now s)).
Proof.
  intros Ha Hd Hb. rewrite (buttonISR_release now s Ha).
  rewrite (proj1 (classify_spec _) Hd). unfold on_release.
  cbn [Blink PressCounter set_lastISRTime]. rewrite Hb. reflexivity.
Qed.

(** X9: the handler keeps no record that a release was already handled.
    A second edge that reads LOW, past the debounce window, is measured
    from the same press start again: with Blink off and both durations
    below 1500ms one press is counted twice. *)
Theorem release_bounce_counts_twice (t1 t2 : Z) (s : State) :
  Blink s = false ->
  accepted t1 s = true -> 50 <= sub_ulong t2 t1 ->
  sub_ulong t1 (pressTime s) < 1500 -> sub_ulong t2 (pressTime s) < 1500 ->
  0 <= PressCounter s -> PressCounter s + 2 <= INT_MAX ->
  PressCounter (buttonISR t2 false (buttonISR t1 false s)) = PressCounter s + 2.
Proof.
  intros Hb Ha1 Ha2 Hd1 Hd2 H0 Hm.
  rewrite (buttonISR_short_counted t1 s Ha1 Hd1 Hb).
  rewrite buttonISR_short_counted;
    [| apply accepted_true; exact Ha2 | exact Hd2 | exact Hb].
  cbn [PressCounter set_actionShort set_PressCounter set_lastISRTime].
  rewrite (wrap_int_small (PressCounter s + 1))
    by (unfold is_int, INT_MIN, INT_MAX in *; lia).
  rewrite wrap_int_small by (unfold is_int, INT_MIN, INT_MAX in *; lia).
  lia.
Qed.

Lemma release_bounce_counts_twice_witness :
  PressCounter (buttonISR 1360 false (buttonISR 1300 false pressed_at_1000)) = 2.
Proof.
  apply (release_bounce_counts_twice 1300 1360 pressed_at_1000);
    try reflexivity; try (vm_compute; first [reflexivity | discriminate]).
Defined.

(** ** Iterations of the loop *)

(** X10: an event is consumed once.  A loop iteration that directly
    follows another, with no interrupt in between, only runs the
    flash-timeout test: it prints nothing and changes neither Blink, the
    counter nor the timer. *)
Theorem events_consumed_once (m1 m2 m3 m4 : Z) (s : State) :
  loop m3 m4 (loop m1 m2 s) = loop_flash_end m4 (loop m1 m2 s) /\
  serial (loop m3 m4 (loop m1 m2 s)) = serial (loop m1 m2 s) /\
  Blink (loop m3 m4 (loop m1 m2 s)) = Blink (loop m1 m2 s) /\
  PressCounter (loop m3 m4 (loop m1 m2 s)) = PressCounter (loop m1 m2 s) /\
  timer1 (loop m3 m4 (loop m1 m2 s)) = timer1 (loop m1 m2 s).
Proof.
  destruct (loop_flags_clear m1 m2 s) as (Hs & Ht & Hp).
  set (s' := loop m1 m2 s) in *.
  assert (E : loop m3 m4 s' = loop_flash_end m4 s').
  { unfold loop. rewrite (loop_stop_skip s' Hp), (loop_short_skip m3 s' Hs).
    apply loop_start_skip.
    destruct (loop_flash_end_frame m4 s') as (_ & _ & _ & A & _). congruence. }
  rewrite E. destruct (loop_flash_end_frame m4 s') as (P & B & T & _).
  repeat split; auto.
  unfold loop_flash_end. destruct (_ && _); reflexivity.
Qed.

(** ** The blink rate beyond eight presses *)

Lemma interval_us_of_ticks (x : Z) : x * 1000000 / TIMER1_HZ = 64 * x.
Proof.
  change TIMER1_HZ with 15625.
  replace (x * 1000000) with (64 * x * 15625) by lia.
  apply Z.div_mul. lia.
Qed.

(** X11: the compare register has 16 bits, so whatever the counter,
    blinking starts with between 2 and 65536 ticks per toggle and a
    blink period of at most 8388608us; from nine counted presses on the
    period is shorter than the 999936us per press that holds up to
    eight. *)
Theorem blink_period_bounded (s : State) :
  actionStart s = true -> Blink s = false -> 0 < PressCounter s ->
  let s' := loop_start s in
  2 <= toggle_ticks s' <= 65536 /\
  blink_period_us s' = 128 * toggle_ticks s' /\
  blink_period_us s' <= 8388608 /\
  (9 <= PressCounter s -> blink_period_us s' < 999936 * PressCounter s).
Proof.
  intros Hf Hb Hp. cbn zeta.
  assert (Ho : OCR1A (timer1 (loop_start s)) =
               (7812 * PressCounter s - 1) mod 65536).
  { rewrite loop_start_fires by assumption. cbn [timer1 set_Blink].
    rewrite startTimer_regs.
    cbn [OCR1A PressCounter digitalWrite_led serial_out set_actionStart].
    destruct (Z.eqb_spec (PressCounter s) 0) as [E|_]; [lia|]. reflexivity. }
  unfold blink_period_us, toggle_interval_us, toggle_ticks.
  rewrite interval_us_of_ticks, Ho.
  pose proof (Z.mod_pos_bound (7812 * PressCounter s - 1) 65536 ltac:(lia)) as Hr.
  pose proof (Z.div_mod (7812 * PressCounter s - 1) 65536 ltac:(lia)) as Hq.
  repeat split; try lia.
Qed.

Lemma blink_period_bounded_witness :
  blink_period_us (loop_start (pending_start 9)) = 610816 /\
  blink_period_us (loop_start (pending_start 9)) < 999936 * 9.
Proof.
  pose proof (blink_period_bounded (pending_start 9) eq_refl eq_refl eq_refl)
    as (_ & _ & _ & H).
  split; [vm_compute; reflexivity|]. apply H. vm_compute. discriminate.
Defined.

(** ** The blink as the timer produces it *)

Lemma ticks_flip (s : State) :
  timer_armed s = true -> TCNT1 (timer1 s) = 0 -> is_u16 (OCR1A (timer1 s)) ->
  Nat.iter (Z.to_nat (toggle_ticks s)) timer1_tick s =
  digitalWrite_led (negb (led s)) s.
Proof. intros Ha H0 Hr. now apply toggle_every_toggle_ticks. Qed.

(** X12: with the timer armed and its counter clear, the LED has the
    opposite level after [toggle_ticks] ticks and after twice as many
    the whole state is what it was: the blink repeats with a period of
    two toggle intervals, for any number of periods, with no drift. *)
Theorem blink_is_periodic (s : State) (j : nat) :
  timer_armed s = true -> TCNT1 (timer1 s) = 0 -> is_u16 (OCR1A (timer1 s)) ->
  led (Nat.iter (Z.to_nat (toggle_ticks s)) timer1_tick s) = negb (led s) /\
  Nat.iter (2 * Z.to_nat (toggle_ticks s)) timer1_tick s = s /\
  Nat.iter (j * (2 * Z.to_nat (toggle_ticks s))) timer1_tick s = s.
Proof.
  intros Ha H0 Hr.
  assert (Hhalf := ticks_flip s Ha H0 Hr).
  assert (Hfull : Nat.iter (2 * Z.to_nat (toggle_ticks s)) timer1_tick s = s).
  { replace (2 * Z.to_nat (toggle_ticks s))%nat
      with (Z.to_nat (toggle_ticks s) + Z.to_nat (toggle_ticks s))%nat by lia.
    rewrite Nat.iter_add, Hhalf.
    change (toggle_ticks s)
      with (toggle_ticks (digitalWrite_led (negb (led s)) s)).
    rewrite ticks_flip by assumption.
    destruct s as [pc pt li ash ast asp bl lf fb ld tm sr].
    cbn. now rewrite negb_involutive. }
  split; [rewrite Hhalf; reflexivity|]. split; [exact Hfull|].
  induction j as [|j IH]; [reflexivity|].
  replace (S j * (2 * Z.to_nat (toggle_ticks s)))%nat
    with (j * (2 * Z.to_nat (toggle_ticks s)) + 2 * Z.to_nat (toggle_ticks s))%nat
    by lia.
  now rewrite Nat.iter_add, Hfull.
Qed.

Lemma blink_is_periodic_witness :
  Nat.iter (3 * (2 * Z.to_nat 7812)) timer1_tick (loop_start (pending_start 1))
  = loop_start (pending_start 1).
Proof.
  assert (Ha : timer_armed (loop_start (pending_start 1)) = true)
    by (vm_compute; reflexivity).
  assert (H0 : TCNT1 (timer1 (loop_start (pending_start 1))) = 0)
    by (vm_compute; reflexivity).
  assert (Hr : is_u16 (OCR1A (timer1 (loop_start (pending_start 1)))))
    by (split; vm_compute; first [reflexivity | discriminate]).
  exact (proj2 (proj2 (blink_is_periodic (loop_start (pending_start 1)) 3
                         Ha H0 Hr))).
Defined.

(** ** Counting presses *)

(** X13: a series of clean short presses (edges at least 50ms apart,
    each press under 1500ms, no clock wrap) made while Blink is off is
    counted in full even when the loop does not run in between: the
    counter goes up by the number of presses (within the range of
    [int]), Blink stays off, and after the first press a short-press
    event is pending. *)
Theorem clean_short_presses_all_counted (ps : list (Z * Z)) (s : State) :
  Blink s = false -> 0 <= lastISRTime s ->
  clean_short (lastISRTime s) ps ->
  0 <= PressCounter s -> PressCounter s + Z.of_nat (List.length ps) <= INT_MAX ->
  PressCounter (run (presses ps) s) = PressCounter s + Z.of_nat (List.length ps) /\
  Blink (run (presses ps) s) = false /\
  (ps <> [] -> actionShort (run (presses ps) s) = true).
Proof.
  revert s. induction ps as [|[down up] ps IH]; intros s Hb Hl Hc H0 Hm.
  - cbn [presses run List.length Z.of_nat]. split; [lia|]. split; [exact Hb|].
    intros H. now contradict H.
  - cbn [clean_short] in Hc. destruct Hc as (Hd & Hu & Hw & Hc).
    cbn [presses run step].
    assert (Ha1 : accepted down s = true).
    { apply accepted_true.
      rewrite sub_ulong_elapsed by (unfold is_ulong; lia). lia. }
    rewrite (buttonISR_press down s Ha1).
    set (s1 := set_pressTime down (set_lastISRTime down s)).
    assert (E : sub_ulong up down = up - down)
      by (apply sub_ulong_elapsed; unfold is_ulong; lia).
    assert (Ha2 : accepted up s1 = true)
      by (apply accepted_true; change (lastISRTime s1) with down; lia).
    assert (Hs : sub_ulong up (pressTime s1) < 1500)
      by (change (pressTime s1) with down; lia).
    rewrite (buttonISR_short_counted up s1 Ha2 Hs Hb).
    change (PressCounter s1) with (PressCounter s).
    rewrite wrap_int_small
      by (unfold is_int, INT_MIN, INT_MAX in *; cbn [List.length] in Hm; lia).
    set (s2 := set_actionShort true _).
    cbn [List.length] in Hm.
    destruct (IH s2) as (P & B & A); try assumption.
    + change (lastISRTime s2) with up. lia.
    + change (PressCounter s2) with (PressCounter s + 1). lia.
    + change (PressCounter s2) with (PressCounter s + 1). lia.
    + change (PressCounter s2) with (PressCounter s + 1) in P.
      split; [cbn [List.length]; lia|]. split; [exact B|]. intros _.
      destruct ps as [|p ps']; [reflexivity|]. apply A. discriminate.
Qed.

Lemma clean_short_presses_all_counted_witness :
  PressCounter (run (presses [(100, 400); (1000, 1300); (2000, 2100)]) boot)
  = 3.
Proof.
  assert (Hc : clean_short (lastISRTime boot)
                 [(100, 400); (1000, 1300); (2000, 2100)])
    by (cbn; unfold ULONG_MOD; lia).
  assert (Hm : PressCounter boot + Z.of_nat 3 <= INT_MAX)
    by (vm_compute; discriminate).
  exact (proj1 (clean_short_presses_all_counted _ boot eq_refl
                  ltac:(cbn; lia) Hc ltac:(cbn; lia) Hm)).
Defined.
